(** * SatNOGS rotator homing (unwind.py): a shallow embedding

    The script drives a rotctld-controlled antenna rotator to a target
    position in bounded azimuth steps.  This development embeds the
    [ROTCTLD] client class and the homing loop of [__main__] and states
    the properties of the design document over that embedding.

    Modelling conventions.
    - Python floats are modelled by exact rationals ([Q]); comparisons,
      [abs], [+], [-] and [%] are the exact operations, so rounding,
      infinities and NaN are outside the model.
    - The socket, the wall clock, [time.sleep] and [logging] are the
      fields of a [World] record threaded through a state-and-exception
      monad.  The clock is a finite trace of the values successive calls
      of [time.time()] return; a computation that asks for more readings
      than the trace holds ends in [OutOfTrace].
    - [sock.sendall] always succeeds; [sock.recv] either yields the next
      queued response or raises the socket's timeout.  The outcome of
      [sock.connect] is an argument of [connect] and of the session
      ([refused]: the exception the call raises, [None] when the peer
      accepts the connection).
    - Python's [float()] builtin is a parameter of the development
      ([float], [None] standing for [ValueError]). *)

From Stdlib Require Import QArith Qabs Qround Qminmax Lqa ZArith List String Ascii Bool Lia.
From Stdlib Require Import DecimalString.
Import ListNotations.

Open Scope Q_scope.

(** ** Numbers *)

(** Python's [a < b] and [a > b] on floats. *)
Definition Qltb (a b : Q) : bool :=
  match a ?= b with Lt => true | _ => false end.

Definition Qgtb (a b : Q) : bool := Qltb b a.

(** Python's [a % m] on floats: the result takes the sign of [m]
    ([a - m * floor (a / m)]). *)
Definition py_mod (a m : Q) : Q := a - m * inject_Z (Qfloor (a / m)).

(** Rounding to the nearest integer, ties to even (the rounding of the
    [%f] conversions). *)
Definition round_half_even (q : Q) : Z :=
  let f := Qfloor q in
  match Qcompare (q - inject_Z f) (1 # 2) with
  | Lt => f
  | Gt => (f + 1)%Z
  | Eq => if Z.even f then f else (f + 1)%Z
  end.

Definition string_of_Z (z : Z) : string := NilZero.string_of_int (Z.to_int z).

(** The conversions ["%.1f"], ["%3.1f"] and ["%2.1f"]: one digit after the
    point.  The shortest output has three characters, so the minimum
    field widths 2 and 3 never pad. *)
Definition fmt_1f (x : Q) : string :=
  let n := round_half_even (Qabs x * 10) in
  ((if Qltb x 0 then "-" else "")
     ++ string_of_Z (n / 10) ++ "." ++ string_of_Z (n mod 10))%string.

(** The conversion ["%d"] of a float: truncation towards zero. *)
Definition fmt_d (x : Q) : string :=
  string_of_Z (if Qltb x 0 then Qceiling x else Qfloor x).

(** The usual clamp of a value to an interval, for the statements about the
    elevation field. *)
Definition clamp (x lo hi : Q) : Q :=
  if Qltb x lo then lo else if Qltb hi x then hi else x.

(** ** Strings *)

Definition LF : ascii := ascii_of_nat 10.
Definition nl : string := String LF EmptyString.

(** Python's [sub in s]. *)
Fixpoint contains (sub s : string) : bool :=
  String.prefix sub s
  || match s with
     | EmptyString => false
     | String _ s' => contains sub s'
     end.

(** Python's [s.split(sep)] for a one-character separator: the result
    always has at least one element. *)
Fixpoint split (sep : ascii) (s : string) : list string :=
  match s with
  | EmptyString => [EmptyString]
  | String c s' =>
      if Ascii.eqb c sep then EmptyString :: split sep s'
      else match split sep s' with
           | [] => [String c EmptyString]
           | w :: ws => String c w :: ws
           end
  end.

(** A string without line terminator. *)
Fixpoint one_line (s : string) : bool :=
  match s with
  | EmptyString => true
  | String c s' => negb (Ascii.eqb c LF) && one_line s'
  end.

(** A reader of plain decimal literals ([-12.5], [270], [0.000000]), used to
    instantiate [float] on concrete responses. *)
Definition digit_of (c : ascii) : option Z :=
  let n := nat_of_ascii c in
  if (48 <=? n)%nat && (n <=? 57)%nat then Some (Z.of_nat (n - 48)) else None.

Fixpoint read_frac (s : string) (num : Z) (den : positive) : option Q :=
  match s with
  | EmptyString => Some (num # den)
  | String c s' =>
      match digit_of c with
      | Some d => read_frac s' (10 * num + d)%Z (10 * den)%positive
      | None => None
      end
  end.

Fixpoint read_int (s : string) (num : Z) (seen : bool) : option Q :=
  match s with
  | EmptyString => if seen then Some (num # 1) else None
  | String c s' =>
      if Ascii.eqb c "."%char then
        match s' with
        | EmptyString => if seen then Some (num # 1) else None
        | _ => read_frac s' num 1
        end
      else match digit_of c with
           | Some d => read_int s' (10 * num + d)%Z true
           | None => None
           end
  end.

Definition decimal_float (s : string) : option Q :=
  match s with
  | String "-"%char s' => option_map Qopp (read_int s' 0 false)
  | _ => read_int s 0 false
  end.

(** ** The world and the monad of effects *)

Inductive level := DEBUG | INFO | ERROR | CRITICAL.

Inductive exn :=
| Exception (msg : string)
| TypeError (msg : string)
| NameError (msg : string)
| AttributeError (msg : string)
| IndexError (msg : string)
| ValueError (msg : string)
| ConnectionRefusedError (msg : string)
| SocketTimeout.

(** [str(e)]. *)
Definition str_exn (e : exn) : string :=
  match e with
  | Exception m | TypeError m | NameError m
  | AttributeError m | IndexError m | ValueError m
  | ConnectionRefusedError m => m
  | SocketTimeout => "timed out"
  end.

Record World := mkWorld {
  clock : list Q;               (* values time.time() will return *)
  inbox : list (option string); (* what sock.recv will return; None: timeout *)
  sent : list string;           (* what sock.sendall has written, oldest first *)
  slept : list Q;               (* the arguments of time.sleep, oldest first *)
  log : list (level * string);  (* logging records, oldest first *)
  closed : bool                 (* sock.close() has been called *)
}.

Inductive Res (A : Type) :=
| Ret (a : A)
| Raise (e : exn)
| OutOfTrace.
Arguments Ret {A} a.
Arguments Raise {A} e.
Arguments OutOfTrace {A}.

Definition M (A : Type) : Type := World -> Res A * World.

Definition ret {A} (a : A) : M A := fun w => (Ret a, w).

Definition bind {A B} (c : M A) (k : A -> M B) : M B :=
  fun w =>
    match c w with
    | (Ret a, w') => k a w'
    | (Raise e, w') => (Raise e, w')
    | (OutOfTrace, w') => (OutOfTrace, w')
    end.

Definition raise {A} (e : exn) : M A := fun w => (Raise e, w).

(** [try: c  except: h] (and [except Exception as e], every exception of
    the model being an [Exception]). *)
Definition try_except {A} (c : M A) (h : exn -> M A) : M A :=
  fun w =>
    match c w with
    | (Raise e, w') => h e w'
    | r => r
    end.

Declare Scope monad_scope.
Delimit Scope monad_scope with monad.
Notation "x <- c ;; k" := (bind c (fun x => k))
  (at level 100, c at next level, right associativity) : monad_scope.
Notation "c ;; k" := (bind c (fun _ => k))
  (at level 100, right associativity) : monad_scope.
Open Scope monad_scope.

(** *** Primitive effects *)

Definition time_time : M Q :=
  fun w =>
    match clock w with
    | [] => (OutOfTrace, w)
    | t :: c => (Ret t, mkWorld c (inbox w) (sent w) (slept w) (log w) (closed w))
    end.

Definition time_sleep (d : Q) : M unit :=
  fun w => (Ret tt, mkWorld (clock w) (inbox w) (sent w) (slept w ++ [d]) (log w) (closed w)).

Definition sock_sendall (data : string) : M unit :=
  fun w => (Ret tt, mkWorld (clock w) (inbox w) (sent w ++ [data]) (slept w) (log w) (closed w)).

Definition sock_recv : M string :=
  fun w =>
    match inbox w with
    | Some s :: rest =>
        (Ret s, mkWorld (clock w) rest (sent w) (slept w) (log w) (closed w))
    | None :: rest =>
        (Raise SocketTimeout, mkWorld (clock w) rest (sent w) (slept w) (log w) (closed w))
    | [] => (Raise SocketTimeout, w)
    end.

Definition sock_close : M unit :=
  fun w => (Ret tt, mkWorld (clock w) (inbox w) (sent w) (slept w) (log w) true).

Definition logging (l : level) (msg : string) : M unit :=
  fun w => (Ret tt, mkWorld (clock w) (inbox w) (sent w) (slept w) (log w ++ [(l, msg)]) (closed w)).

(** *** Python operations that may raise *)

(** [response.split('\n')]: [None] has no attribute [split]. *)
Definition py_split (response : option string) : M (list string) :=
  match response with
  | Some s => ret (split LF s)
  | None => raise (AttributeError "'NoneType' object has no attribute 'split'")
  end.

(** [l[i]]. *)
Definition py_index (l : list string) (i : nat) : M string :=
  match nth_error l i with
  | Some s => ret s
  | None => raise (IndexError "list index out of range")
  end.

(** [sub not in response]: [None] is not a container. *)
Definition py_not_in (sub : string) (response : option string) : M bool :=
  match response with
  | Some s => ret (negb (contains sub s))
  | None => raise (TypeError "argument of type 'NoneType' is not iterable")
  end.

(** ["%s" % response]. *)
Definition str_response (response : option string) : string :=
  match response with
  | Some s => s
  | None => "None"
  end.

(** ** The rotctld client: class [ROTCTLD] *)

(** The attributes of a [ROTCTLD] object other than its socket (the socket
    is the [World]). *)
Record ROTCTLD := mkROTCTLD {
  poll_rate : Q;
  movement_threshold : Q;
  movement_timeout : Q
}.

(** The command-line arguments the homing loop reads.  [home_azimuth] and
    [home_elevation] stand for [_home_az] and [_home_el]; a rise azimuth
    taken from the schedule is a value of [home_azimuth]. *)
Record Args := mkArgs {
  home_azimuth : Q;
  home_elevation : Q;
  homing_timeout : Q;
  azimuth_step : Q;
  args_movement_threshold : Q
}.

(** The object [__main__] builds: [poll_rate = 3.0], the threshold of the
    command line, and the default [movement_timeout = 120.0]. *)
Definition rot_of_args (args : Args) : ROTCTLD :=
  mkROTCTLD 3 (args_movement_threshold args) 120.

(** ** The observation schedule

    What [get_next_rise_azimuth] reads of the SatNOGS network.  An
    observation is the JSON object reduced to the three keys the function
    reads, its [start] already parsed to a timestamp in seconds.  A page
    is the outcome of one [requests.get] followed by [.json()]; the pages
    are taken in the order the requests are made, and a request beyond
    the last page fails. *)

Record Observation := mkObservation {
  obs_id : Z;
  obs_start : Q;
  obs_rise_azimuth : Q
}.

Inductive page :=
| PageError (msg : string)                         (* the request or the decoding raised *)
| PageOther                                        (* JSON that is not a list *)
| PageList (obs : list Observation) (next : bool). (* a list; [next]: 'next' in _r.links *)

(** How the script ends: [sys.exit(code)] or the end of the file. *)
Inductive outcome := Exited (code : Z) | Completed.

(** ** Concrete sessions

    Inputs on which the statements below are evaluated: the default
    command line (home position [(0, 0)], 180 s overall, steps of 90
    degrees, threshold 10 degrees) and a few scripted rotctld peers. *)

Definition default_args : Args := mkArgs 0 0 180 90 10.

Definition lines (l0 l1 : string) : string := (l0 ++ nl ++ l1 ++ nl)%string.

Definition model_reply : option string := Some ("Dummy rotator" ++ nl)%string.
Definition ack : option string := Some ("RPRT 0" ++ nl)%string.

(** The rotator already stands at the target azimuth, elevation 45. *)
Definition equal_azimuth_world : World :=
  mkWorld [0; 1; 2] [model_reply; Some (lines "0.000000" "45.000000")] [] [] [] false.

(** The rotator is within the threshold of the target; the final command
    is never answered. *)
Definition unanswered_world : World :=
  mkWorld [0; 1; 2] [model_reply; Some (lines "2.000000" "3.500000")] [] [] [] false.

(** The exception of a connection nobody accepts. *)
Definition refusal : exn := ConnectionRefusedError "[Errno 111] Connection refused".

(** The rotator is within the threshold of the target and acknowledges
    the final command. *)
Definition arrived_world : World :=
  mkWorld [0; 1; 2] [Some (lines "2.000000" "3.500000"); ack] [] [] [] false.

(** A peer that acknowledges a command and reports the rotator on its way,
    then arrived. *)
Definition moving_world : World :=
  mkWorld [0; 3; 6; 9]
    [ack; Some (lines "45.000000" "40.000000"); Some (lines "85.000000" "44.000000")]
    [] [] [] false.

(** A peer that acknowledges commands; a peer that never answers. *)
Definition ack_world : World := mkWorld [0; 1] [ack] [] [] [] false.
Definition silent_world : World := mkWorld [0; 1] [] [] [] [] false.

(** A move towards azimuth 100 in steps of 50: the first step is confirmed
    at azimuth 50, the next position read is azimuth 100 at elevation 45,
    and the command that follows is never answered. *)
Definition stale_args : Args := mkArgs 100 0 180 50 10.
Definition stale_world : World :=
  mkWorld [0; 1; 2; 3; 4; 5; 6]
    [model_reply; Some (lines "0.000000" "0.000000"); ack;
     Some (lines "50.000000" "0.000000"); Some (lines "100.000000" "45.000000")]
    [] [] [] false.

(** Further peers: one that rejects a command, one whose clock shows the
    movement timeout elapsed, and sessions that end at the first
    iteration. *)
Definition nack : option string := Some ("RPRT -1" ++ nl)%string.
Definition rejecting_world : World := mkWorld [0; 1] [nack] [] [] [] false.
Definition late_world : World := mkWorld [0; 200] [ack] [] [] [] false.

Definition quarter_args : Args := mkArgs 90 45 180 90 10.
Definition at_origin : option string := Some (lines "0.000000" "0.000000").

Definition expired_world : World :=
  mkWorld [0; 200; 201] [model_reply] [] [] [] false.
Definition garbled_world : World :=
  mkWorld [0; 1; 2] [model_reply; Some "garbage"%string] [] [] [] false.
Definition rejected_step_world : World :=
  mkWorld [0; 1; 2] [model_reply; at_origin; nack] [] [] [] false.
Definition unanswered_step_world : World :=
  mkWorld [0; 1; 2] [model_reply; at_origin] [] [] [] false.
Definition stalled_step_world : World :=
  mkWorld [0; 1; 2; 200; 201] [model_reply; at_origin; ack] [] [] [] false.

(** A schedule in two pages, read at time 1000: one observation too soon
    (it starts within the minute), two inside the window. *)
Definition obs_later : Observation := mkObservation 11 5000 120.
Definition obs_next : Observation := mkObservation 12 3000 200.
Definition obs_too_soon : Observation := mkObservation 13 1030 10.
Definition obs_soon : Observation := mkObservation 14 1100 75.

Definition two_pages : list page :=
  [PageList [obs_later] true; PageList [obs_next; obs_too_soon] false].
Definition broken_pages : list page :=
  [PageList [obs_later] true; PageList [] false].
Definition schedule_world : World :=
  mkWorld [1000; 1000; 1001] [] [] [] [] false.

Section Rotator.

Variable float : string -> option Q.

(** Python's [str()] of a float (the conversion ["%s"] of line 265). *)
Variable str_float : Q -> string.

(** [float(s)]. *)
Definition py_float (s : string) : M Q :=
  match float s with
  | Some x => ret x
  | None => raise (ValueError "could not convert string to float")
  end.

Definition close : M unit := sock_close.

Definition send_command (command : string) : M (option string) :=
  sock_sendall (command ++ nl)%string;;
  try_except (s <- sock_recv;; ret (Some s)) (fun _ => ret None).

Definition get_model : M (option string) := send_command "_".

(** [self.sock.connect((self.hostname, self.port))]: [refused] is the
    exception the call raises, [None] when the peer accepts. *)
Definition sock_connect (refused : option exn) : M unit :=
  match refused with
  | Some e => raise e
  | None => ret tt
  end.

Definition connect (refused : option exn) : M (option string) :=
  sock_connect refused;;
  model <- get_model;;
  match model with
  | None => close;; raise (Exception "Timeout!")
  | Some _ => ret model
  end.

(** [get_azel]: the pair [(None, None)] is [None], a pair of floats is
    [Some]. *)
Definition get_azel : M (option (Q * Q)) :=
  response <- send_command "p";;
  try_except
    (response_split <- py_split response;;
     s0 <- py_index response_split 0;;
     _current_azimuth <- py_float s0;;
     s1 <- py_index response_split 1;;
     _current_elevation <- py_float s1;;
     ret (Some (_current_azimuth, _current_elevation)))
    (fun _ =>
       logging ERROR ("Could not parse position: " ++ str_response response)%string;;
       ret None).

(** The polling loop of [set_azel], over the sanitised [azimuth] and
    [elevation].  Every iteration reads the clock once, so a [fuel] above
    the length of the clock trace is never used up. *)
Fixpoint set_azel_wait (fuel : nat) (self : ROTCTLD)
    (azimuth elevation _start_time : Q) : M bool :=
  match fuel with
  | O => fun w => (OutOfTrace, w)
  | S fuel' =>
      now <- time_time;;
      if Qltb (now - _start_time) (movement_timeout self) then
        (time_sleep (poll_rate self);;
         pos <- get_azel;;
         match pos with
         | None => raise (Exception "No communication with rotator.")
         | Some (_az, _el) =>
             logging DEBUG
               ("Current position: " ++ fmt_1f _az ++ ", " ++ fmt_1f _el)%string;;
             if Qltb (Qabs (azimuth - py_mod _az 360)) (movement_threshold self)
                && Qltb (Qabs (elevation - _el)) (movement_threshold self)
             then ret true
             else set_azel_wait fuel' self azimuth elevation _start_time
         end)
      else raise (Exception "Movement Timeout!")
  end.

(** The sanity checks at the head of [set_azel]. *)
Definition sane_elevation (elevation : Q) : Q :=
  if Qgtb elevation 90 then 90
  else if Qltb elevation 0 then 0
  else elevation.

Definition sane_azimuth (azimuth : Q) : Q :=
  if Qgtb azimuth 360 then py_mod azimuth 360 else azimuth.

(** The text of the position command, without its line terminator. *)
Definition position_command (azimuth elevation : Q) : string :=
  ("P " ++ fmt_1f azimuth ++ " " ++ fmt_1f elevation)%string.

(** [set_azel(azimuth, elevation, blocking, timeout)]; the body never reads
    its [timeout] argument. *)
Definition set_azel (self : ROTCTLD) (azimuth elevation : Q)
    (blocking : bool) (timeout : Q) : M bool :=
  let elevation := sane_elevation elevation in
  let azimuth := sane_azimuth azimuth in
  let command := position_command azimuth elevation in
  response <- send_command command;;
  rejected <- py_not_in "RPRT 0" response;;
  if rejected then ret false
  else if negb blocking then ret true
  else
    _start_time <- time_time;;
    logging DEBUG
      ("Target position: " ++ fmt_1f azimuth ++ ", " ++ fmt_1f elevation)%string;;
    fun w =>
      set_azel_wait (S (List.length (clock w))) self azimuth elevation _start_time w.

Definition halt : M unit := send_command "S";; ret tt.

(** ** The homing loop of [__main__] *)

(** Lines 302-314: the branches that assign [_new_az].  [prev] is the
    binding of [_new_az] on entry ([None]: not yet bound); when neither
    comparison holds no assignment is made. *)
Definition step_azimuth (step _home_az _az : Q) (prev : option Q) : option Q :=
  if Qltb _az _home_az then
    let _new_az := _az + step in
    Some (if Qgtb _new_az _home_az then _home_az else _new_az)
  else if Qgtb _az _home_az then
    let _new_az := _az - step in
    Some (if Qltb _new_az _home_az then _home_az else _new_az)
  else prev.

(** Reading the variable [_new_az]. *)
Definition read_new_az (binding : option Q) : M Q :=
  match binding with
  | Some v => ret v
  | None => raise (NameError "name '_new_az' is not defined")
  end.

(** The [while] loop (lines 287-331).  [_new_az] is the binding of the
    variable of that name at the head of the iteration. *)
Fixpoint homing_loop (fuel : nat) (args : Args) (_rot : ROTCTLD)
    (_start_time : Q) (_new_az : option Q) : M unit :=
  match fuel with
  | O => fun w => (OutOfTrace, w)
  | S fuel' =>
      now <- time_time;;
      if Qltb (now - _start_time) (homing_timeout args) then
        (pos <- get_azel;;
         match pos with
         | None => logging ERROR "Could not communicate with rotator."
         | Some (_az, _el) =>
             if Qltb (Qabs (home_azimuth args - _az)) (args_movement_threshold args)
                && Qltb (Qabs (home_elevation args - _el)) (args_movement_threshold args)
             then
               (logging INFO "Finished moving to target position.";;
                set_azel _rot (home_azimuth args) (home_elevation args) false 120;;
                ret tt)
             else
               (let _new_az := step_azimuth (azimuth_step args) (home_azimuth args) _az _new_az in
                v <- read_new_az _new_az;;
                let _new_az := py_mod v 360 in
                r <- try_except
                       (_success <- set_azel _rot _new_az (home_elevation args) true 120;;
                        ret (Some _success))
                       (fun e => logging ERROR ("Error - " ++ str_exn e)%string;; ret None);;
                match r with
                | None => ret tt
                | Some true =>
                    logging INFO "Movement successful!";;
                    homing_loop fuel' args _rot _start_time (Some _new_az)
                | Some false => logging ERROR "Failed to move rotator. Breaking"
                end)
         end)
      else ret tt
  end.

(** Lines 282-331: the session up to the end of the loop; the value is
    [_start_time]. *)
Definition homing (args : Args) (_rot : ROTCTLD) : M Q :=
  _start_time <- time_time;;
  logging INFO
    ("Attempting to move to target position: "
       ++ fmt_1f (home_azimuth args) ++ ", " ++ fmt_1f (home_elevation args))%string;;
  (fun w => homing_loop (S (List.length (clock w))) args _rot _start_time None w);;
  ret _start_time.

(** Lines 275-336, for a target already resolved: connect, home, close the
    connection and log the elapsed time.  [refused] is the outcome of
    [sock.connect] inside the constructor of [ROTCTLD]. *)
Definition main (refused : option exn) (args : Args) : M unit :=
  connect refused;;
  let _rot := rot_of_args args in
  _start_time <- homing args _rot;;
  close;;
  now <- time_time;;
  logging INFO ("Elapsed time: " ++ fmt_d (now - _start_time) ++ " seconds")%string.

(** ** Vocabulary of the statements *)

(** The response the next [recv] yields: the entry [i] of the queue, a
    timeout once the queue is exhausted. *)
Definition response_at (inb : list (option string)) (i : nat) : option string :=
  nth i inb None.

(** What a position query makes of a response: the first two lines, both
    read as floats. *)
Definition parsed_position (response : option string) : option (Q * Q) :=
  match response with
  | None => None
  | Some s =>
      match split LF s with
      | l0 :: l1 :: _ =>
          match float l0, float l1 with
          | Some az, Some el => Some (az, el)
          | _, _ => None
          end
      | _ => None
      end
  end.

(** The arrival test of the blocking wait, for a commanded [(az, el)]
    and a reported position [p]. *)
Definition within (self : ROTCTLD) (az el : Q) (p : Q * Q) : Prop :=
  Qabs (az - py_mod (fst p) 360) < movement_threshold self
  /\ Qabs (el - snd p) < movement_threshold self.

(** The guard of the polling loop at clock reading [t]. *)
Definition in_time (self : ROTCTLD) (_start_time t : Q) : Prop :=
  t - _start_time < movement_timeout self.

(** The line a call [set_azel(az, el)] writes to the socket. *)
Definition wire (az el : Q) : string :=
  (position_command (sane_azimuth az) (sane_elevation el) ++ nl)%string.

Definition poll_line : string := ("p" ++ nl)%string.

Definition movement_timeout_exn : exn := Exception "Movement Timeout!".
Definition no_communication_exn : exn := Exception "No communication with rotator.".

(** The record [get_azel] logs when the response does not parse. *)
Definition parse_log (response : option string) : list (level * string) :=
  match parsed_position response with
  | Some _ => []
  | None => [(ERROR, ("Could not parse position: " ++ str_response response)%string)]
  end.

(** The world a position query leaves behind. *)
Definition polled (w : World) : World :=
  mkWorld (clock w) (tl (inbox w)) (sent w ++ [poll_line])
    (slept w) (log w ++ parse_log (response_at (inbox w) 0)) (closed w).

(** The arrival test as [set_azel] computes it. *)
Definition withinb (self : ROTCTLD) (az el : Q) (p : Q * Q) : bool :=
  Qltb (Qabs (az - py_mod (fst p) 360)) (movement_threshold self)
  && Qltb (Qabs (el - snd p)) (movement_threshold self).

(** The world of the polling loop after the guard has consumed a clock
    reading and the loop has slept, and after the position it then read
    has been logged. *)
Definition slept_once (self : ROTCTLD) (w : World) : World :=
  mkWorld (tl (clock w)) (inbox w) (sent w) (slept w ++ [poll_rate self])
    (log w) (closed w).

Definition position_logged (p : Q * Q) (w : World) : World :=
  mkWorld (clock w) (inbox w) (sent w) (slept w)
    (log w ++ [(DEBUG, ("Current position: " ++ fmt_1f (fst p) ++ ", "
                          ++ fmt_1f (snd p))%string)])
    (closed w).

(** Poll [i] of a blocking wait is made under a passing guard. *)
Definition guard_ok (self : ROTCTLD) (_start_time : Q) (clk : list Q) (i : nat) : Prop :=
  exists t, nth_error clk i = Some t /\ in_time self _start_time t.

(** The first [n] polls were all made, were all readable and none of
    them met the threshold. *)
Definition steady (self : ROTCTLD) (az el _start_time : Q)
    (clk : list Q) (inb : list (option string)) (n : nat) : Prop :=
  forall i, (i < n)%nat ->
    guard_ok self _start_time clk i
    /\ exists p, parsed_position (response_at inb i) = Some p /\ ~ within self az el p.

(** Poll [n] is made before the timeout, after readable polls only, and
    reports a position within the threshold. *)
Definition arrives (self : ROTCTLD) (az el _start_time : Q)
    (clk : list Q) (inb : list (option string)) (n : nat) : Prop :=
  (forall i, (i <= n)%nat -> guard_ok self _start_time clk i)
  /\ (forall i, (i < n)%nat -> exists p, parsed_position (response_at inb i) = Some p)
  /\ exists p, parsed_position (response_at inb n) = Some p /\ within self az el p.

(** The guard fails at its reading [n], no earlier poll having ended the
    wait. *)
Definition times_out (self : ROTCTLD) (az el _start_time : Q)
    (clk : list Q) (inb : list (option string)) (n : nat) : Prop :=
  steady self az el _start_time clk inb n
  /\ exists t, nth_error clk n = Some t /\ ~ in_time self _start_time t.

(** Poll [n] is made and its response is unreadable, no earlier poll
    having ended the wait. *)
Definition lost (self : ROTCTLD) (az el _start_time : Q)
    (clk : list Q) (inb : list (option string)) (n : nat) : Prop :=
  steady self az el _start_time clk inb n
  /\ guard_ok self _start_time clk n
  /\ parsed_position (response_at inb n) = None.

(** The world after [set_azel] has exchanged its command, and the world in
    which its polling loop starts. *)
Definition commanded (az el : Q) (w : World) : World :=
  mkWorld (clock w) (tl (inbox w)) (sent w ++ [wire az el])
    (slept w) (log w) (closed w).

Definition waiting (az el : Q) (w : World) : World :=
  mkWorld (tl (clock w)) (tl (inbox w)) (sent w ++ [wire az el]) (slept w)
    (log w ++ [(DEBUG, ("Target position: " ++ fmt_1f (sane_azimuth az) ++ ", "
                          ++ fmt_1f (sane_elevation el))%string)])
    (closed w).

Definition not_iterable_exn : exn :=
  TypeError "argument of type 'NoneType' is not iterable".

(** ** The schedule lookup: [get_next_rise_azimuth] *)

(** Lines 177-205: the pagination loop; [_obs] is the list gathered so
    far, [None] stands for the early [return (None, None)]. *)
Fixpoint fetch_observations (pages : list page) (_obs : list Observation)
  : M (option (list Observation)) :=
  match pages with
  | [] =>
      logging ERROR "Error getting next observation info - no response";;
      ret None
  | PageError msg :: _ =>
      logging ERROR ("Error getting next observation info - " ++ msg)%string;;
      ret None
  | PageOther :: _ =>
      logging ERROR "SatNOGS API did not return expected list.";;
      ret None
  | PageList [] _ :: _ =>
      logging INFO "No scheduled observations found.";;
      ret None
  | PageList _obs_temp next :: rest =>
      let _obs := (_obs ++ _obs_temp)%list in
      logging DEBUG
        ("Appended " ++ string_of_Z (Z.of_nat (List.length _obs_temp))
           ++ " observations to list.")%string;;
      if next then fetch_observations rest _obs else ret (Some _obs)
  end.

(** Lines 215-221: one iteration of the search for the earliest
    observation.  The state is [(_next_obs_time, _obs_info)]; [_rise_az]
    is assigned together with [_obs_info] and is its rise azimuth. *)
Definition select_step (_earliest_obs_time : Q)
    (st : Q * option Observation) (_o : Observation) : Q * option Observation :=
  let _start := obs_start _o in
  if Qltb _start (fst st) && Qgtb _start _earliest_obs_time
  then (_start, Some _o)
  else st.

Definition select_next (_next_obs_time _earliest_obs_time : Q)
    (_obs : list Observation) : Q * option Observation :=
  fold_left (select_step _earliest_obs_time) _obs (_next_obs_time, None).

(** [get_next_rise_azimuth]: [(None, None)] is [None], a pair
    [(_rise_az, _time_to_obs)] is [Some].  [datetime.now] reads the clock
    of the world; a day is 86400 seconds. *)
Definition get_next_rise_azimuth (pages : list page) : M (option (Q * Q)) :=
  r <- fetch_observations pages [];;
  match r with
  | None => ret None
  | Some _obs =>
      now1 <- time_time;;
      let _next_obs_time := now1 + 86400 in
      now2 <- time_time;;
      let _earliest_obs_time := now2 + 60 in
      let st := select_next _next_obs_time _earliest_obs_time _obs in
      now3 <- time_time;;
      let _time_to_obs := fst st - now3 in
      match snd st with
      | Some _obs_info =>
          logging INFO
            ("Next observation (#" ++ string_of_Z (obs_id _obs_info)
               ++ ") rises at " ++ fmt_1f (obs_rise_azimuth _obs_info)
               ++ " degrees, in " ++ fmt_1f (_time_to_obs / 60)
               ++ " minutes.")%string;;
          ret (Some (obs_rise_azimuth _obs_info, _time_to_obs))
      | None =>
          logging INFO "No scheduled observations found.";;
          ret None
      end
  end.

(** Lines 256-336: the whole script.  [station] is [None] for
    [--station_id -1] and the pages the network serves otherwise;
    [refused] is the outcome of [sock.connect]. *)
Definition script (station : option (list page)) (refused : option exn)
    (args : Args) : M outcome :=
  match station with
  | Some pages =>
      r <- get_next_rise_azimuth pages;;
      match r with
      | Some (_rise_az, _time_to_obs) =>
          if Qltb _time_to_obs (homing_timeout args) then
            logging CRITICAL
              ("Next observation is only " ++ str_float _time_to_obs
                 ++ " seconds away! Not enough time to move...")%string;;
            ret (Exited 0)
          else
            main refused
              (mkArgs _rise_az (home_elevation args) (homing_timeout args)
                 (azimuth_step args) (args_movement_threshold args));;
            ret Completed
      | None =>
          logging INFO "No observations scheduled, using home position.";;
          main refused args;;
          ret Completed
      end
  | None => main refused args;; ret Completed
  end.

(** *** Vocabulary of the statements on the schedule *)

(** A page that makes the pagination loop go on, and one that ends the
    lookup with [(None, None)]. *)
Definition page_goes_on (p : page) : Prop :=
  exists o obs, p = PageList (o :: obs) true.

Definition page_gives_up (p : page) : Prop :=
  match p with
  | PageError _ | PageOther | PageList [] _ => True
  | PageList (_ :: _) _ => False
  end.

(** The window of line 218 around the clock readings [now1] and [now2]. *)
Definition in_window (now1 now2 : Q) (o : Observation) : Prop :=
  obs_start o < now1 + 86400 /\ now2 + 60 < obs_start o.

(** *** Worlds along a session *)

(** The world after one more clock reading, after one more logging
    record, after a successful [connect] and after [close]. *)
Definition ticked (w : World) : World :=
  mkWorld (tl (clock w)) (inbox w) (sent w) (slept w) (log w) (closed w).

Definition logged (l : level) (msg : string) (w : World) : World :=
  mkWorld (clock w) (inbox w) (sent w) (slept w) (log w ++ [(l, msg)]) (closed w).

Definition connected (w : World) : World :=
  mkWorld (clock w) (tl (inbox w)) (sent w ++ [("_" ++ nl)%string])
    (slept w) (log w) (closed w).

Definition shut (w : World) : World :=
  mkWorld (clock w) (inbox w) (sent w) (slept w) (log w) true.

Definition unbound_exn : exn := NameError "name '_new_az' is not defined".

(** The arrival test of the homing loop (line 296). *)
Definition arrivedb (args : Args) (p : Q * Q) : bool :=
  Qltb (Qabs (home_azimuth args - fst p)) (args_movement_threshold args)
  && Qltb (Qabs (home_elevation args - snd p)) (args_movement_threshold args).

(** The first record of a session. *)
Definition attempt_line (args : Args) : string :=
  ("Attempting to move to target position: "
     ++ fmt_1f (home_azimuth args) ++ ", " ++ fmt_1f (home_elevation args))%string.

(** The observations of a page, and a world with more logging records. *)
Definition page_obs (p : page) : list Observation :=
  match p with
  | PageList obs _ => obs
  | _ => []
  end.

Definition with_log (records : list (level * string)) (w : World) : World :=
  mkWorld (clock w) (inbox w) (sent w) (slept w) (log w ++ records) (closed w).

(** ** Arithmetic facts *)

Lemma Qltb_lt a b : Qltb a b = true <-> a < b.
Proof.
  unfold Qltb. rewrite Qlt_alt. destruct (a ?= b); split; congruence.
Qed.

Lemma Qltb_ge a b : Qltb a b = false <-> b <= a.
Proof.
  unfold Qltb. rewrite Qle_alt, <- (Qcompare_antisym a b).
  destruct (a ?= b); simpl; split; congruence.
Qed.

Lemma Qltb_spec a b : reflect (a < b) (Qltb a b).
Proof.
  destruct (Qltb a b) eqn:E; constructor.
  - now apply Qltb_lt.
  - apply Qltb_ge in E. lra.
Qed.

Lemma py_mod_360_range a : 0 <= py_mod a 360 /\ py_mod a 360 < 360.
Proof.
  unfold py_mod.
  pose proof (Qfloor_le (a / 360)) as Hlo.
  pose proof (Qlt_floor (a / 360)) as Hhi.
  rewrite inject_Z_plus in Hhi.
  change (inject_Z 1) with 1 in Hhi.
  assert (Ha : a == 360 * (a / 360)) by field.
  generalize dependent (inject_Z (Qfloor (a / 360))).
  generalize dependent (a / 360).
  intros x Ha f Hlo Hhi. split; lra.
Qed.

Lemma sane_azimuth_above a : 360 < a -> sane_azimuth a = py_mod a 360.
Proof.
  intros H. unfold sane_azimuth, Qgtb.
  now destruct (Qltb_spec 360 a).
Qed.

Lemma sane_azimuth_keep a : a <= 360 -> sane_azimuth a = a.
Proof.
  intros H. unfold sane_azimuth, Qgtb.
  destruct (Qltb_spec 360 a); [lra | reflexivity].
Qed.

Lemma sane_elevation_clamp e : sane_elevation e = clamp e 0 90.
Proof.
  unfold sane_elevation, clamp, Qgtb.
  destruct (Qltb_spec 90 e), (Qltb_spec e 0); try reflexivity. lra.
Qed.

Lemma clamp_range e : 0 <= clamp e 0 90 /\ clamp e 0 90 <= 90.
Proof.
  unfold clamp.
  destruct (Qltb_spec e 0), (Qltb_spec 90 e); lra.
Qed.

(** ** Splitting a response into lines *)

Lemma split_nonempty sep s : split sep s <> [].
Proof.
  destruct s as [|c s]; simpl; [discriminate|].
  destruct (Ascii.eqb c sep); [discriminate|].
  destruct (split sep s); discriminate.
Qed.

Lemma split_one_line s : one_line s = true -> split LF s = [s].
Proof.
  induction s as [|c s IH]; simpl; [reflexivity|].
  intros H. apply andb_true_iff in H. destruct H as [Hc Hs].
  apply negb_true_iff in Hc. rewrite Hc, (IH Hs). reflexivity.
Qed.

Lemma split_line_app a b :
  one_line a = true -> split LF (a ++ nl ++ b)%string = a :: split LF b.
Proof.
  induction a as [|c a IH]; simpl; intros H.
  - reflexivity.
  - apply andb_true_iff in H. destruct H as [Hc Ha].
    apply negb_true_iff in Hc. rewrite Hc. simpl in IH. rewrite (IH Ha). reflexivity.
Qed.

Lemma split_lines l0 l1 :
  one_line l0 = true -> one_line l1 = true ->
  split LF (lines l0 l1) = [l0; l1; EmptyString].
Proof.
  intros H0 H1. unfold lines. rewrite (split_line_app l0 _ H0).
  change (l1 ++ nl)%string with (l1 ++ nl ++ EmptyString)%string.
  rewrite (split_line_app l1 _ H1). reflexivity.
Qed.

(** ** Running the client primitives *)

Lemma send_command_run command w :
  send_command command w
  = (Ret (response_at (inbox w) 0),
     mkWorld (clock w) (tl (inbox w)) (sent w ++ [(command ++ nl)%string])
       (slept w) (log w) (closed w)).
Proof.
  unfold send_command, bind, try_except, sock_sendall, sock_recv, ret, response_at.
  simpl. destruct (inbox w) as [|[s|] rest]; reflexivity.
Qed.

Lemma get_azel_run w :
  get_azel w
  = (Ret (parsed_position (response_at (inbox w) 0)),
     mkWorld (clock w) (tl (inbox w)) (sent w ++ [poll_line])
       (slept w) (log w ++ parse_log (response_at (inbox w) 0)) (closed w)).
Proof.
  unfold get_azel, bind at 1. rewrite send_command_run.
  unfold parse_log, parsed_position.
  destruct (response_at (inbox w) 0) as [s|]; [|reflexivity].
  unfold try_except, bind, py_split, py_index, py_float, ret, raise, logging.
  destruct (split LF s) as [|l0 [|l1 ls]]; simpl; try reflexivity.
  - destruct (float l0); reflexivity.
  - destruct (float l0); [|reflexivity].
    destruct (float l1); simpl; [|reflexivity].
    now rewrite app_nil_r.
Qed.

(** ** The polling loop *)

Lemma withinb_within self az el p :
  withinb self az el p = true <-> within self az el p.
Proof.
  unfold withinb, within. rewrite andb_true_iff, !Qltb_lt. reflexivity.
Qed.

Lemma set_azel_wait_S fuel self az el t0 w :
  set_azel_wait (S fuel) self az el t0 w
  = match clock w with
    | [] => (OutOfTrace, w)
    | t :: _ =>
        if Qltb (t - t0) (movement_timeout self) then
          let w1 := polled (slept_once self w) in
          match parsed_position (response_at (inbox w) 0) with
          | None => (Raise no_communication_exn, w1)
          | Some p =>
              if withinb self az el p then (Ret true, position_logged p w1)
              else set_azel_wait fuel self az el t0 (position_logged p w1)
          end
        else
          (Raise movement_timeout_exn,
           mkWorld (tl (clock w)) (inbox w) (sent w) (slept w) (log w) (closed w))
    end.
Proof.
  cbn [set_azel_wait]. unfold bind at 1, time_time.
  destruct (clock w) as [|t clk] eqn:Hclk; [reflexivity|].
  destruct (Qltb (t - t0) (movement_timeout self)); [|reflexivity].
  unfold bind at 1, time_sleep. unfold bind at 1. rewrite get_azel_run.
  cbn [clock inbox sent slept log closed].
  unfold slept_once, polled. rewrite Hclk. cbn [clock inbox sent slept log closed tl].
  destruct (parsed_position (response_at (inbox w) 0)) as [[a e]|]; [|reflexivity].
  unfold bind at 1, logging. cbn [clock inbox sent slept log closed fst snd].
  unfold withinb, position_logged. cbn [clock inbox sent slept log closed fst snd].
  destruct (_ && _); reflexivity.
Qed.

Lemma response_at_S inb i : response_at inb (S i) = response_at (tl inb) i.
Proof. unfold response_at. destruct inb; [now destruct i | reflexivity]. Qed.

Lemma nth_error_S_tl (clk : list Q) i : nth_error clk (S i) = nth_error (tl clk) i.
Proof. destruct clk; [now destruct i | reflexivity]. Qed.

Lemma guard_ok_S self t0 clk i :
  guard_ok self t0 clk (S i) <-> guard_ok self t0 (tl clk) i.
Proof. unfold guard_ok. now rewrite nth_error_S_tl. Qed.

Lemma guard_ok_0 self t0 clk :
  guard_ok self t0 clk 0 ->
  exists t rest, clk = t :: rest /\ Qltb (t - t0) (movement_timeout self) = true.
Proof.
  intros (t & Ht & Hin). destruct clk as [|t' rest]; [discriminate|].
  injection Ht as ->. exists t, rest. split; [reflexivity|]. now apply Qltb_lt.
Qed.

Lemma steady_S self az el t0 clk inb n :
  steady self az el t0 clk inb (S n) ->
  guard_ok self t0 clk 0
  /\ (exists p, parsed_position (response_at inb 0) = Some p /\ ~ within self az el p)
  /\ steady self az el t0 (tl clk) (tl inb) n.
Proof.
  intros H. destruct (H 0%nat) as [Hg Hp]; [lia|].
  repeat split; trivial.
  - apply guard_ok_S. apply (H (S i)). lia.
  - rewrite <- response_at_S. apply (H (S i)). lia.
Qed.

Lemma steady_cons self az el t0 clk inb n :
  guard_ok self t0 clk 0 ->
  (exists p, parsed_position (response_at inb 0) = Some p /\ ~ within self az el p) ->
  steady self az el t0 (tl clk) (tl inb) n ->
  steady self az el t0 clk inb (S n).
Proof.
  intros Hg Hp H [|i] Hi; [now split|].
  destruct (H i) as [Hg' Hp']; [lia|]. split.
  - now apply guard_ok_S.
  - now rewrite response_at_S.
Qed.

Lemma arrives_S self az el t0 clk inb n :
  arrives self az el t0 clk inb (S n) ->
  guard_ok self t0 clk 0
  /\ (exists p, parsed_position (response_at inb 0) = Some p)
  /\ arrives self az el t0 (tl clk) (tl inb) n.
Proof.
  intros (Hg & Hp & Hw). split; [apply Hg; lia|]. split; [apply Hp; lia|].
  repeat split.
  - intros i Hi. apply guard_ok_S, Hg. lia.
  - intros i Hi. rewrite <- response_at_S. apply Hp. lia.
  - now rewrite <- response_at_S.
Qed.

Lemma arrives_cons self az el t0 clk inb n :
  guard_ok self t0 clk 0 ->
  (exists p, parsed_position (response_at inb 0) = Some p) ->
  arrives self az el t0 (tl clk) (tl inb) n ->
  arrives self az el t0 clk inb (S n).
Proof.
  intros Hg Hp (Hg' & Hp' & Hw). repeat split.
  - intros [|i] Hi; [assumption|]. apply guard_ok_S, Hg'. lia.
  - intros [|i] Hi; [assumption|]. rewrite response_at_S. apply Hp'. lia.
  - now rewrite response_at_S.
Qed.

(** The first steps of the loop, read on the result. *)
Ltac wait_step Hg :=
  let t := fresh "t" in
  let rest := fresh "rest" in
  let Hclk := fresh "Hclk" in
  let Ht := fresh "Ht" in
  destruct (guard_ok_0 _ _ _ Hg) as (t & rest & Hclk & Ht);
  rewrite set_azel_wait_S, Hclk, Ht; cbv zeta.

Lemma wait_arrives self az el t0 n :
  forall fuel w,
    (List.length (clock w) < fuel)%nat ->
    arrives self az el t0 (clock w) (inbox w) n ->
    fst (set_azel_wait fuel self az el t0 w) = Ret true.
Proof.
  induction n as [|n IH]; intros fuel w Hfuel Harr.
  - destruct Harr as (Hg & _ & p & Hp & Hw).
    assert (Hg0 := Hg 0%nat (le_n _)).
    destruct fuel as [|fuel]; [lia|]. wait_step Hg0.
    rewrite Hp. apply withinb_within in Hw. now rewrite Hw.
  - destruct (arrives_S _ _ _ _ _ _ _ Harr) as (Hg0 & (p & Hp) & Htl).
    destruct fuel as [|fuel]; [lia|]. wait_step Hg0.
    rewrite Hp. destruct (withinb self az el p); [reflexivity|].
    apply IH; cbn [position_logged polled slept_once clock inbox]; trivial.
    rewrite Hclk in *. simpl in *. lia.
Qed.

Lemma wait_times_out self az el t0 n :
  forall fuel w,
    (List.length (clock w) < fuel)%nat ->
    times_out self az el t0 (clock w) (inbox w) n ->
    fst (set_azel_wait fuel self az el t0 w) = Raise movement_timeout_exn.
Proof.
  induction n as [|n IH]; intros fuel w Hfuel [Hst Hout].
  - destruct Hout as (t & Ht & Hlate).
    destruct fuel as [|fuel]; [lia|]. rewrite set_azel_wait_S.
    destruct (clock w) as [|t' rest]; [discriminate|]. injection Ht as ->.
    destruct (Qltb_spec (t - t0) (movement_timeout self)); [contradiction|reflexivity].
  - destruct (steady_S _ _ _ _ _ _ _ Hst) as (Hg0 & (p & Hp & Hnw) & Htl).
    destruct fuel as [|fuel]; [lia|]. wait_step Hg0.
    rewrite Hp. rewrite <- withinb_within in Hnw.
    destruct (withinb self az el p); [now elim Hnw|].
    apply IH; cbn [position_logged polled slept_once clock inbox].
    + rewrite Hclk in *. simpl in *. lia.
    + split; [assumption|]. now rewrite <- nth_error_S_tl.
Qed.

Lemma repeat_snoc {A} (x : A) k : repeat x k ++ [x] = repeat x (S k).
Proof. induction k as [|k IH]; simpl; [reflexivity|]. now rewrite IH. Qed.

Lemma wait_lost self az el t0 n :
  forall fuel w,
    (List.length (clock w) < fuel)%nat ->
    lost self az el t0 (clock w) (inbox w) n ->
    fst (set_azel_wait fuel self az el t0 w) = Raise no_communication_exn
    /\ sent (snd (set_azel_wait fuel self az el t0 w))
       = sent w ++ repeat poll_line (S n).
Proof.
  induction n as [|n IH]; intros fuel w Hfuel (Hst & Hg & Hnone).
  - destruct fuel as [|fuel]; [lia|]. wait_step Hg.
    rewrite Hnone. split; reflexivity.
  - destruct (steady_S _ _ _ _ _ _ _ Hst) as (Hg0 & (p & Hp & Hnw) & Htl).
    destruct fuel as [|fuel]; [lia|]. wait_step Hg0.
    rewrite Hp. rewrite <- withinb_within in Hnw.
    destruct (withinb self az el p); [now elim Hnw|].
    destruct (IH fuel (position_logged p (polled (slept_once self w)))) as [Hr Hs];
      cbn [position_logged polled slept_once clock inbox].
    + rewrite Hclk in *. simpl in *. lia.
    + split; [assumption|]. split.
      * now apply guard_ok_S.
      * now rewrite <- response_at_S.
    + split; [assumption|]. rewrite Hs.
      cbn [position_logged polled slept_once sent].
      rewrite <- app_assoc. reflexivity.
Qed.

Lemma wait_true_inv self az el t0 fuel :
  forall w,
    fst (set_azel_wait fuel self az el t0 w) = Ret true ->
    exists n, arrives self az el t0 (clock w) (inbox w) n
              /\ steady self az el t0 (clock w) (inbox w) n.
Proof.
  induction fuel as [|fuel IH]; intros w; [discriminate|].
  rewrite set_azel_wait_S.
  destruct (clock w) as [|t rest] eqn:Hclk; [discriminate|].
  destruct (Qltb_spec (t - t0) (movement_timeout self)) as [Hin|]; [|discriminate].
  assert (Hg0 : guard_ok self t0 (t :: rest) 0) by (exists t; now split).
  cbv zeta.
  destruct (parsed_position (response_at (inbox w) 0)) as [p|] eqn:Hp; [|discriminate].
  destruct (withinb self az el p) eqn:Hw.
  - intros _. exists 0%nat. split.
    + repeat split.
      * intros i Hi. now replace i with 0%nat by lia.
      * intros i Hi. lia.
      * exists p. split; [assumption|]. now apply withinb_within.
    + intros i Hi. lia.
  - intros H. apply IH in H.
    cbn [position_logged polled slept_once clock inbox] in H. rewrite Hclk in H.
    destruct H as (n & Harr & Hst). exists (S n). split.
    + apply arrives_cons; eauto.
    + apply steady_cons; trivial. exists p. split; [assumption|].
      rewrite <- withinb_within, Hw. discriminate.
Qed.

Lemma wait_sent self az el t0 fuel :
  forall w, exists k,
    sent (snd (set_azel_wait fuel self az el t0 w)) = sent w ++ repeat poll_line k.
Proof.
  induction fuel as [|fuel IH]; intros w.
  - exists 0%nat. simpl. now rewrite app_nil_r.
  - rewrite set_azel_wait_S.
    destruct (clock w) as [|t rest]; [exists 0%nat; simpl; now rewrite app_nil_r|].
    destruct (Qltb (t - t0) (movement_timeout self));
      [|exists 0%nat; simpl; now rewrite app_nil_r].
    cbv zeta.
    destruct (parsed_position (response_at (inbox w) 0)) as [p|];
      [|exists 1%nat; reflexivity].
    destruct (withinb self az el p); [exists 1%nat; reflexivity|].
    destruct (IH (position_logged p (polled (slept_once self w)))) as [k Hk].
    exists (S k). rewrite Hk. cbn [position_logged polled slept_once sent].
    now rewrite <- app_assoc.
Qed.

(** ** Commanding a position *)

Lemma set_azel_run self az el blocking timeout w :
  set_azel self az el blocking timeout w
  = match response_at (inbox w) 0 with
    | None => (Raise not_iterable_exn, commanded az el w)
    | Some s =>
        if contains "RPRT 0" s then
          if blocking then
            match clock w with
            | [] => (OutOfTrace, commanded az el w)
            | t0 :: clk =>
                set_azel_wait (S (List.length clk)) self
                  (sane_azimuth az) (sane_elevation el) t0 (waiting az el w)
            end
          else (Ret true, commanded az el w)
        else (Ret false, commanded az el w)
    end.
Proof.
  unfold set_azel. unfold bind at 1. rewrite send_command_run.
  fold (wire az el). fold (commanded az el w).
  destruct (response_at (inbox w) 0) as [s|]; [|reflexivity].
  unfold bind at 1, py_not_in, ret.
  destruct (contains "RPRT 0" s); [|reflexivity]. cbn [negb].
  destruct blocking; [|reflexivity]. cbn [negb].
  unfold bind at 1, time_time. cbn [commanded clock].
  destruct (clock w) as [|t0 clk] eqn:Hclk; [reflexivity|].
  unfold bind at 1, logging. cbn [clock inbox sent slept log closed].
  unfold waiting. rewrite Hclk. reflexivity.
Qed.

(** The [timeout] argument of [set_azel] has no effect. *)
Lemma set_azel_timeout_unused self az el blocking t1 t2 w :
  set_azel self az el blocking t1 w = set_azel self az el blocking t2 w.
Proof. reflexivity. Qed.

Lemma set_azel_rejected self az el blocking timeout w s :
  response_at (inbox w) 0 = Some s ->
  contains "RPRT 0" s = false ->
  set_azel self az el blocking timeout w = (Ret false, commanded az el w).
Proof. intros Hs Hc. now rewrite set_azel_run, Hs, Hc. Qed.

Lemma set_azel_absent self az el blocking timeout w :
  response_at (inbox w) 0 = None ->
  set_azel self az el blocking timeout w
  = (Raise not_iterable_exn, commanded az el w).
Proof. intros Hs. now rewrite set_azel_run, Hs. Qed.

Lemma set_azel_sent self az el blocking timeout w :
  exists k,
    sent (snd (set_azel self az el blocking timeout w))
    = sent w ++ wire az el :: repeat poll_line k
    /\ (blocking = false -> k = 0%nat).
Proof.
  rewrite set_azel_run.
  destruct (response_at (inbox w) 0) as [s|]; [|now exists 0%nat].
  destruct (contains "RPRT 0" s); [|now exists 0%nat].
  destruct blocking; [|now exists 0%nat].
  destruct (clock w) as [|t0 clk]; [now exists 0%nat|].
  destruct (wait_sent self (sane_azimuth az) (sane_elevation el) t0
              (S (List.length clk)) (waiting az el w)) as [k Hk].
  exists k. split; [|discriminate]. rewrite Hk. cbn [waiting sent].
  now rewrite <- app_assoc.
Qed.

(** Goals and hypotheses about absolute values, by cases on the signs. *)
Ltac qabs :=
  intros;
  repeat match goal with
         | H : context [Qabs ?x] |- _ => revert H; apply (Qabs_case x); intros
         | |- context [Qabs ?x] => apply (Qabs_case x); intros
         end;
  lra.

(** ** The claims on the client *)

(** C1 (step bound).  One stepping iteration computes [current + step]
    clamped down to the target when [current < target] and
    [current - step] clamped up to the target when [current > target].
    For a non-negative step size the computed azimuth is therefore at
    most one step away from the current azimuth and never beyond the
    target, and when the remaining distance is at most one step (the
    final step) the computed delta is the remaining distance. *)
Theorem step_azimuth_bounded (step _home_az _az : Q) (prev : option Q) :
  (_az < _home_az ->
   step_azimuth step _home_az _az prev = Some (Qmin (_az + step) _home_az))
  /\ (_home_az < _az ->
      step_azimuth step _home_az _az prev = Some (Qmax (_az - step) _home_az))
  /\ (0 <= step ->
      ~ _az == _home_az ->
      exists _new_az,
        step_azimuth step _home_az _az prev = Some _new_az
        /\ Qabs (_new_az - _az) <= step
        /\ Qabs (_new_az - _az) <= Qabs (_home_az - _az)
        /\ (Qabs (_home_az - _az) <= step -> _new_az - _az == _home_az - _az)).
Proof.
  unfold step_azimuth, Qgtb, Qmin, Qmax, GenericMinMax.gmin, GenericMinMax.gmax.
  split; [|split].
  - intros Hlt. destruct (Qltb_spec _az _home_az); [|contradiction].
    unfold Qltb. rewrite <- (Qcompare_antisym (_az + step) _home_az).
    now destruct (_az + step ?= _home_az).
  - intros Hgt. destruct (Qltb_spec _az _home_az); [lra|].
    destruct (Qltb_spec _home_az _az); [|contradiction].
    unfold Qltb. now destruct (_az - step ?= _home_az).
  - intros Hstep Hne.
    destruct (Qltb_spec _az _home_az) as [Hlt|Hge].
    + destruct (Qltb_spec _home_az (_az + step));
        eexists; (split; [reflexivity|]); (split; [|split]); qabs.
    + destruct (Qltb_spec _home_az _az) as [Hgt|Hle]; [|elim Hne; lra].
      destruct (Qltb_spec (_az - step) _home_az);
        eexists; (split; [reflexivity|]); (split; [|split]); qabs.
Qed.

(** C2 (blocking move).  When the position command is accepted, a blocking
    [set_azel] returns [True] exactly when some poll made under a passing
    timeout guard, after readable polls only, reports both axes within the
    threshold of the commanded (sanitised) target, the reported azimuth
    being reduced modulo 360.  If the guard fails first the call raises
    the movement timeout; if a poll cannot be read the call raises the
    communication error at once, that poll being the last line written.
    The timeout is the attribute [movement_timeout] of the object: the
    [timeout] argument is not read. *)
Theorem set_azel_blocking_outcome self az el timeout w s t0 clk :
  response_at (inbox w) 0 = Some s ->
  contains "RPRT 0" s = true ->
  clock w = t0 :: clk ->
  let run := set_azel self az el true timeout w in
  let az' := sane_azimuth az in
  let el' := sane_elevation el in
  let inb := tl (inbox w) in
  (fst run = Ret true <-> exists n, arrives self az' el' t0 clk inb n)
  /\ (forall n, times_out self az' el' t0 clk inb n ->
        fst run = Raise movement_timeout_exn)
  /\ (forall n, lost self az' el' t0 clk inb n ->
        fst run = Raise no_communication_exn
        /\ sent (snd run) = sent w ++ wire az el :: repeat poll_line (S n)).
Proof.
  intros Hs Hc Hclk. cbv zeta.
  rewrite set_azel_run, Hs, Hc, Hclk.
  assert (Hfuel : (List.length (clock (waiting az el w)) < S (List.length clk))%nat)
    by (cbn [waiting clock]; rewrite Hclk; simpl; lia).
  assert (Hck : clock (waiting az el w) = clk)
    by (cbn [waiting clock]; now rewrite Hclk).
  assert (Hib : inbox (waiting az el w) = tl (inbox w)) by reflexivity.
  split; [split|split].
  - intros H. apply wait_true_inv in H. destruct H as (n & Harr & _).
    exists n. now rewrite Hck, Hib in Harr.
  - intros [n Harr]. apply (wait_arrives _ _ _ _ n); trivial.
    now rewrite Hck, Hib.
  - intros n Hto. apply (wait_times_out _ _ _ _ n); trivial.
    now rewrite Hck, Hib.
  - intros n Hlost.
    destruct (wait_lost self (sane_azimuth az) (sane_elevation el) t0 n
                (S (List.length clk)) (waiting az el w)) as [Hr Hsent]; trivial.
    + now rewrite Hck, Hib.
    + split; [assumption|]. rewrite Hsent. cbn [waiting sent].
      now rewrite <- app_assoc.
Qed.

(** C5, as amended.  For every azimuth strictly above 360, commanding
    [(a, e)] and commanding [(a mod 360, e)] are the same computation:
    same line written, same result, same final world. *)
Theorem set_azel_mod_360 self a e blocking timeout w :
  360 < a ->
  set_azel self a e blocking timeout w
  = set_azel self (py_mod a 360) e blocking timeout w.
Proof.
  intros Ha. rewrite !set_azel_run.
  unfold commanded, waiting, wire.
  rewrite (sane_azimuth_above a Ha).
  rewrite (sane_azimuth_keep (py_mod a 360))
    by (destruct (py_mod_360_range a); lra).
  reflexivity.
Qed.

(** C6 (in-range command).  For [0 <= a < 360] the line written for
    [(a, e)] carries [a] itself and [e] clamped to [[0, 90]], each with one
    digit after the point; it is followed on the wire by position polls
    only, and by nothing when the call is not blocking. *)
Theorem set_azel_wire_in_range self a e blocking timeout w :
  0 <= a -> a < 360 ->
  exists k,
    sent (snd (set_azel self a e blocking timeout w))
    = sent w
        ++ (("P " ++ fmt_1f a ++ " " ++ fmt_1f (clamp e 0 90)) ++ nl)%string
        :: repeat poll_line k
    /\ (blocking = false -> k = 0%nat).
Proof.
  intros Hlo Hhi.
  destruct (set_azel_sent self a e blocking timeout w) as (k & Hk & Hnb).
  exists k. split; [|assumption]. rewrite Hk. unfold wire, position_command.
  rewrite sane_azimuth_keep by lra. now rewrite sane_elevation_clamp.
Qed.

(** C10 (negative azimuth).  For [a < 0] the line written for [(a, e)]
    carries [a] itself: no reduction modulo 360 takes place. *)
Theorem set_azel_wire_negative self a e blocking timeout w :
  a < 0 ->
  exists k,
    sent (snd (set_azel self a e blocking timeout w))
    = sent w
        ++ (("P " ++ fmt_1f a ++ " " ++ fmt_1f (clamp e 0 90)) ++ nl)%string
        :: repeat poll_line k
    /\ (blocking = false -> k = 0%nat).
Proof.
  intros Hneg.
  destruct (set_azel_sent self a e blocking timeout w) as (k & Hk & Hnb).
  exists k. split; [|assumption]. rewrite Hk. unfold wire, position_command.
  rewrite sane_azimuth_keep by lra. now rewrite sane_elevation_clamp.
Qed.

(** C8 (position query).  Whatever the transport yields, [get_azel]
    returns: it never raises.  It returns [(None, None)] when the response
    is missing, has fewer than two lines or has a first or second line
    that is not a float, and the pair of floats of the first two lines
    otherwise (lines after the second are not looked at); in particular
    it returns the pair on a response made of two numeric lines. *)
Theorem get_azel_never_raises w :
  exists r w',
    get_azel w = (Ret r, w')
    /\ sent w' = sent w ++ [poll_line]
    /\ (response_at (inbox w) 0 = None -> r = None)
    /\ (forall s, response_at (inbox w) 0 = Some s ->
          (List.length (split LF s) < 2)%nat -> r = None)
    /\ (forall s l0 l1 ls, response_at (inbox w) 0 = Some s ->
          split LF s = l0 :: l1 :: ls ->
          float l0 = None \/ float l1 = None -> r = None)
    /\ (forall s l0 l1 ls a e, response_at (inbox w) 0 = Some s ->
          split LF s = l0 :: l1 :: ls ->
          float l0 = Some a -> float l1 = Some e -> r = Some (a, e))
    /\ (forall l0 l1 a e, one_line l0 = true -> one_line l1 = true ->
          response_at (inbox w) 0 = Some (lines l0 l1) ->
          float l0 = Some a -> float l1 = Some e -> r = Some (a, e)).
Proof.
  rewrite get_azel_run. do 2 eexists. split; [reflexivity|].
  split; [reflexivity|]. unfold parsed_position.
  split; [|split; [|split; [|split]]].
  - now intros ->.
  - intros s -> Hlen. destruct (split LF s) as [|l0 [|l1 ls]]; trivial.
    simpl in Hlen. lia.
  - intros s l0 l1 ls -> -> [H|H]; rewrite H; [reflexivity|].
    now destruct (float l0).
  - intros s l0 l1 ls a e -> -> -> ->. reflexivity.
  - intros l0 l1 a e H0 H1 -> Ha He.
    now rewrite (split_lines l0 l1 H0 H1), Ha, He.
Qed.

(** ** The claims on the homing loop *)

(** The run of a session whose first position read is within the threshold
    of the target. *)
Lemma homing_arrival_run args _rot w t0 t1 clk az el :
  clock w = t0 :: t1 :: clk ->
  t1 - t0 < homing_timeout args ->
  parsed_position (response_at (inbox w) 0) = Some (az, el) ->
  Qabs (home_azimuth args - az) < args_movement_threshold args ->
  Qabs (home_elevation args - el) < args_movement_threshold args ->
  homing args _rot w
  = (match response_at (inbox w) 1 with
     | Some _ => Ret t0
     | None => Raise not_iterable_exn
     end,
     mkWorld clk (tl (tl (inbox w)))
       (sent w ++ [poll_line; wire (home_azimuth args) (home_elevation args)])
       (slept w)
       (log w
          ++ [(INFO,
               ("Attempting to move to target position: "
                  ++ fmt_1f (home_azimuth args) ++ ", "
                  ++ fmt_1f (home_elevation args))%string);
              (INFO, "Finished moving to target position."%string)])
       (closed w)).
Proof.
  intros Hclk Hin Hp Haz Hel.
  unfold homing. unfold bind at 1, time_time. rewrite Hclk.
  unfold bind at 1, logging. cbn [clock inbox sent slept log closed].
  unfold bind at 1. cbn [homing_loop List.length].
  unfold bind at 1, time_time. cbn [clock inbox sent slept log closed].
  apply Qltb_lt in Hin, Haz, Hel. rewrite Hin.
  unfold bind at 1. rewrite get_azel_run.
  cbn [clock inbox sent slept log closed]. unfold parse_log. rewrite Hp, Haz, Hel.
  cbn [andb]. unfold bind at 1, logging. cbn [clock inbox sent slept log closed].
  unfold bind at 1. rewrite set_azel_run.
  cbn [clock inbox sent slept log closed commanded].
  rewrite <- response_at_S.
  destruct (response_at (inbox w) 1) as [s|];
    [destruct (contains "RPRT 0" s)|];
    unfold ret, commanded; cbn [clock inbox sent slept log closed];
    rewrite <- !app_assoc; reflexivity.
Qed.

(** X20 (the arrival branch).  When the first position read already lies
    within the threshold of the target on both axes (raw values, no
    reduction modulo 360), the session writes the position poll and then
    exactly one position command, for the target itself; it logs that it
    finished moving; it never sleeps, never reads the clock again and
    logs nothing of a blocking wait.  The loop ends there: normally when
    the final command is answered (whatever the answer), with the
    [TypeError] of [set_azel] when no answer arrives. *)
Theorem homing_already_there args _rot w t0 t1 clk az el :
  clock w = t0 :: t1 :: clk ->
  t1 - t0 < homing_timeout args ->
  parsed_position (response_at (inbox w) 0) = Some (az, el) ->
  Qabs (home_azimuth args - az) < args_movement_threshold args ->
  Qabs (home_elevation args - el) < args_movement_threshold args ->
  let run := homing args _rot w in
  sent (snd run)
  = sent w ++ [poll_line; wire (home_azimuth args) (home_elevation args)]
  /\ slept (snd run) = slept w
  /\ clock (snd run) = clk
  /\ inbox (snd run) = tl (tl (inbox w))
  /\ closed (snd run) = closed w
  /\ log (snd run)
     = log w
         ++ [(INFO,
              ("Attempting to move to target position: "
                 ++ fmt_1f (home_azimuth args) ++ ", "
                 ++ fmt_1f (home_elevation args))%string);
             (INFO, "Finished moving to target position."%string)]
  /\ fst run
     = match response_at (inbox w) 1 with
       | Some _ => Ret t0
       | None => Raise not_iterable_exn
       end.
Proof.
  intros Hclk Hin Hp Haz Hel. cbv zeta.
  rewrite (homing_arrival_run args _rot w t0 t1 clk az el) by assumption.
  repeat split.
Qed.

(** The missing branch of the step computation: when the first position
    read has the target azimuth itself and the elevation is still off,
    neither comparison of lines 302-314 holds, [_new_az] was never bound
    and reading it raises [NameError]; the exception leaves the loop and
    nothing is written after the poll. *)
Lemma homing_unbound_new_az args _rot w t0 t1 clk az el :
  clock w = t0 :: t1 :: clk ->
  t1 - t0 < homing_timeout args ->
  parsed_position (response_at (inbox w) 0) = Some (az, el) ->
  az == home_azimuth args ->
  args_movement_threshold args <= Qabs (home_elevation args - el) ->
  fst (homing args _rot w) = Raise (NameError "name '_new_az' is not defined")
  /\ sent (snd (homing args _rot w)) = sent w ++ [poll_line]
  /\ closed (snd (homing args _rot w)) = closed w.
Proof.
  intros Hclk Hin Hp Haz Hel.
  assert (E : exists wf,
             homing args _rot w
             = (Raise (NameError "name '_new_az' is not defined"), wf)
             /\ sent wf = sent w ++ [poll_line] /\ closed wf = closed w).
  { unfold homing. unfold bind at 1, time_time. rewrite Hclk.
    unfold bind at 1, logging. cbn [clock inbox sent slept log closed].
    unfold bind at 1. cbn [homing_loop List.length].
    unfold bind at 1, time_time. cbn [clock inbox sent slept log closed].
    apply Qltb_lt in Hin. rewrite Hin.
    unfold bind at 1. rewrite get_azel_run.
    cbn [clock inbox sent slept log closed]. rewrite Hp.
    apply Qltb_ge in Hel. rewrite Hel, andb_false_r.
    unfold step_azimuth, Qgtb.
    destruct (Qltb_spec az (home_azimuth args)); [lra|].
    destruct (Qltb_spec (home_azimuth args) az); [lra|].
    unfold bind at 1, read_new_az, raise. eexists. split; [reflexivity|].
    split; reflexivity. }
  destruct E as (wf & -> & Hs & Hc). now repeat split.
Qed.

(** A session that returns has closed its connection. *)
Lemma main_returns_closed refused args w :
  fst (main refused args w) = Ret tt -> closed (snd (main refused args w)) = true.
Proof.
  unfold main, bind.
  destruct (connect refused w) as [[model|e|] w1]; try discriminate.
  destruct (homing args (rot_of_args args) w1) as [[t|e|] w2]; try discriminate.
  unfold close, sock_close, time_time, logging.
  cbn [clock inbox sent slept log closed].
  destruct (clock w2); [discriminate | intros _; reflexivity].
Qed.

(** ** Further properties of the client *)

(** The polling loop sleeps once before each poll and consumes one
    response per poll. *)
Lemma wait_trace self az el t0 fuel :
  forall w, exists k,
    sent (snd (set_azel_wait fuel self az el t0 w)) = sent w ++ repeat poll_line k
    /\ slept (snd (set_azel_wait fuel self az el t0 w))
       = slept w ++ repeat (poll_rate self) k
    /\ inbox (snd (set_azel_wait fuel self az el t0 w)) = skipn k (inbox w)
    /\ closed (snd (set_azel_wait fuel self az el t0 w)) = closed w.
Proof.
  induction fuel as [|fuel IH]; intros w.
  - exists 0%nat. simpl. now rewrite !app_nil_r.
  - rewrite set_azel_wait_S.
    destruct (clock w) as [|t rest];
      [exists 0%nat; simpl; now rewrite !app_nil_r|].
    destruct (Qltb (t - t0) (movement_timeout self));
      [|exists 0%nat; simpl; now rewrite !app_nil_r].
    cbv zeta.
    destruct (parsed_position (response_at (inbox w) 0)) as [p|];
      [|exists 1%nat; cbn; destruct (inbox w); repeat split].
    destruct (withinb self az el p);
      [exists 1%nat; cbn; destruct (inbox w); repeat split|].
    destruct (IH (position_logged p (polled (slept_once self w))))
      as (k & Hs & Hz & Hi & Hc).
    exists (S k). rewrite Hs, Hz, Hi, Hc.
    cbn [position_logged polled slept_once sent slept inbox closed].
    rewrite <- !app_assoc. destruct (inbox w); repeat split.
    simpl. now destruct k.
Qed.

(** X2.  Whatever the peer answers, a call of [set_azel] writes its
    command line and then position polls only, sleeps [poll_rate]
    exactly once per poll, consumes exactly one response per line
    written and never closes the socket; without [blocking] there is no
    poll at all. *)
Theorem set_azel_trace self az el blocking timeout w :
  exists k,
    sent (snd (set_azel self az el blocking timeout w))
    = sent w ++ wire az el :: repeat poll_line k
    /\ slept (snd (set_azel self az el blocking timeout w))
       = slept w ++ repeat (poll_rate self) k
    /\ inbox (snd (set_azel self az el blocking timeout w))
       = skipn (S k) (inbox w)
    /\ closed (snd (set_azel self az el blocking timeout w)) = closed w
    /\ (blocking = false -> k = 0%nat).
Proof.
  rewrite set_azel_run.
  assert (H0 : forall r : Res bool,
             let run := (r, commanded az el w) in
             exists k,
               sent (snd run) = sent w ++ wire az el :: repeat poll_line k
               /\ slept (snd run) = slept w ++ repeat (poll_rate self) k
               /\ inbox (snd run) = skipn (S k) (inbox w)
               /\ closed (snd run) = closed w
               /\ (blocking = false -> k = 0%nat)).
  { intros r. exists 0%nat. cbn. rewrite app_nil_r.
    destruct (inbox w); repeat split. }
  destruct (response_at (inbox w) 0) as [s|]; [|apply H0].
  destruct (contains "RPRT 0" s); [|apply H0].
  destruct blocking; [|apply H0].
  destruct (clock w) as [|t0 clk]; [apply H0|].
  destruct (wait_trace self (sane_azimuth az) (sane_elevation el) t0
              (S (List.length clk)) (waiting az el w)) as (k & Hs & Hz & Hi & Hc).
  exists k. rewrite Hs, Hz, Hi, Hc. cbn [waiting sent slept inbox closed].
  rewrite <- app_assoc. destruct (inbox w); repeat split; try discriminate.
  simpl. now destruct k.
Qed.

(** X3.  The sanity checks are idempotent: commanding the sanitised
    position is the same computation as commanding the position. *)
Theorem set_azel_sanitised self az el blocking timeout w :
  set_azel self (sane_azimuth az) (sane_elevation el) blocking timeout w
  = set_azel self az el blocking timeout w.
Proof.
  rewrite !set_azel_run. unfold commanded, waiting, wire.
  assert (Ha : sane_azimuth (sane_azimuth az) = sane_azimuth az).
  { destruct (Qltb_spec 360 az) as [Hgt|Hle].
    - rewrite (sane_azimuth_above az Hgt). apply sane_azimuth_keep.
      destruct (py_mod_360_range az). lra.
    - assert (Hle' : az <= 360) by lra.
      now rewrite !(sane_azimuth_keep az Hle'). }
  assert (He : sane_elevation (sane_elevation el) = sane_elevation el).
  { unfold sane_elevation, Qgtb.
    destruct (Qltb_spec 90 el); [reflexivity|].
    destruct (Qltb_spec el 0) as [|Hge]; [reflexivity|].
    destruct (Qltb_spec 90 el); [lra|].
    destruct (Qltb_spec el 0); [lra|reflexivity]. }
  now rewrite Ha, He.
Qed.

(** X4.  A response that is present but lacks the success marker makes
    [set_azel] return [False] in both modes, after exactly one line
    written and one response consumed, without sleeping and without
    reading the clock. *)
Theorem set_azel_rejected_no_wait self az el blocking timeout w s :
  response_at (inbox w) 0 = Some s ->
  contains "RPRT 0" s = false ->
  fst (set_azel self az el blocking timeout w) = Ret false
  /\ sent (snd (set_azel self az el blocking timeout w)) = sent w ++ [wire az el]
  /\ slept (snd (set_azel self az el blocking timeout w)) = slept w
  /\ clock (snd (set_azel self az el blocking timeout w)) = clock w
  /\ inbox (snd (set_azel self az el blocking timeout w)) = tl (inbox w).
Proof.
  intros Hs Hc. rewrite set_azel_run, Hs, Hc. repeat split.
Qed.

(** X5.  A blocking move whose timeout has already elapsed at the first
    guard raises the movement timeout without polling or sleeping. *)
Theorem set_azel_elapsed_timeout self az el timeout w s t0 t1 clk :
  response_at (inbox w) 0 = Some s ->
  contains "RPRT 0" s = true ->
  clock w = t0 :: t1 :: clk ->
  movement_timeout self <= t1 - t0 ->
  fst (set_azel self az el true timeout w) = Raise movement_timeout_exn
  /\ sent (snd (set_azel self az el true timeout w)) = sent w ++ [wire az el]
  /\ slept (snd (set_azel self az el true timeout w)) = slept w
  /\ clock (snd (set_azel self az el true timeout w)) = clk.
Proof.
  intros Hs Hc Hclk Hlate. rewrite set_azel_run, Hs, Hc, Hclk.
  rewrite set_azel_wait_S. cbn [waiting clock]. rewrite Hclk. cbn [tl].
  apply Qltb_ge in Hlate. rewrite Hlate. repeat split.
Qed.

(** X6.  A blocking move to a negative azimuth at least one threshold
    below zero is never confirmed: the commanded azimuth is not reduced
    while every reported azimuth is reduced into [0, 360), so no report
    can come within the threshold. *)
Theorem set_azel_negative_never_confirmed self a e timeout w :
  a < 0 ->
  movement_threshold self <= - a ->
  fst (set_azel self a e true timeout w) <> Ret true.
Proof.
  intros Hneg Hthr. rewrite set_azel_run.
  destruct (response_at (inbox w) 0) as [s|]; [|discriminate].
  destruct (contains "RPRT 0" s); [|discriminate].
  destruct (clock w) as [|t0 clk]; [discriminate|].
  intros H. apply wait_true_inv in H.
  destruct H as (n & (_ & _ & p & _ & Hw & _) & _).
  rewrite sane_azimuth_keep in Hw by lra.
  destruct (py_mod_360_range (fst p)) as [Hlo _].
  revert Hw. apply Qabs_case; intros; lra.
Qed.

(** ** Further properties of the step computation *)

(** X7.  With a non-negative step size, one step shortens the remaining
    azimuth distance by the step size, down to zero. *)
Theorem step_azimuth_remaining (step _home_az _az : Q) (prev : option Q) :
  0 <= step ->
  ~ _az == _home_az ->
  exists _new_az,
    step_azimuth step _home_az _az prev = Some _new_az
    /\ Qabs (_home_az - _new_az) == Qmax 0 (Qabs (_home_az - _az) - step).
Proof.
  intros Hstep Hne. unfold step_azimuth, Qgtb.
  destruct (Qltb_spec _az _home_az) as [Hlt|Hge].
  - destruct (Qltb_spec _home_az (_az + step));
      eexists; (split; [reflexivity|]);
      apply Q.max_case_strong; try (intros x y Hxy; now rewrite Hxy); qabs.
  - destruct (Qltb_spec _home_az _az) as [Hgt|Hle]; [|elim Hne; lra].
    destruct (Qltb_spec (_az - step) _home_az);
      eexists; (split; [reflexivity|]);
      apply Q.max_case_strong; try (intros x y Hxy; now rewrite Hxy); qabs.
Qed.

(** X8.  A negative step size is not rejected: the computed azimuth then
    lies further from the target than the current one, by the magnitude
    of the step. *)
Theorem step_azimuth_negative_step (step _home_az _az : Q) (prev : option Q) :
  step < 0 ->
  ~ _az == _home_az ->
  exists _new_az,
    step_azimuth step _home_az _az prev = Some _new_az
    /\ Qabs (_home_az - _new_az) == Qabs (_home_az - _az) - step.
Proof.
  intros Hstep Hne. unfold step_azimuth, Qgtb.
  destruct (Qltb_spec _az _home_az) as [Hlt|Hge].
  - destruct (Qltb_spec _home_az (_az + step)); [lra|].
    eexists. split; [reflexivity|]. qabs.
  - destruct (Qltb_spec _home_az _az) as [Hgt|Hle]; [|elim Hne; lra].
    destruct (Qltb_spec (_az - step) _home_az); [lra|].
    eexists. split; [reflexivity|]. qabs.
Qed.

(** X9.  The reduction of line 317 composes with the sanity check of
    [set_azel]: the stepped azimuth reaches the wire as reduced, in
    [0, 360), and differs from the computed azimuth by a whole number of
    turns. *)
Theorem stepped_azimuth_on_the_wire (v e : Q) :
  wire (py_mod v 360) e
  = (position_command (py_mod v 360) (clamp e 0 90) ++ nl)%string
  /\ 0 <= py_mod v 360 < 360
  /\ exists turns : Z, v == py_mod v 360 + 360 * inject_Z turns.
Proof.
  destruct (py_mod_360_range v) as [Hlo Hhi]. split; [|split].
  - unfold wire. rewrite sane_azimuth_keep by lra.
    now rewrite sane_elevation_clamp.
  - now split.
  - exists (Qfloor (v / 360)). unfold py_mod. ring.
Qed.

(** ** Running the homing loop *)

Lemma connect_run refused w :
  connect refused w
  = match refused with
    | Some e => (Raise e, w)
    | None =>
        match response_at (inbox w) 0 with
        | Some s => (Ret (Some s), connected w)
        | None => (Raise (Exception "Timeout!"), shut (connected w))
        end
    end.
Proof.
  unfold connect, sock_connect, get_model. destruct refused as [e|]; [reflexivity|].
  unfold bind at 1, ret. unfold bind at 1. rewrite send_command_run.
  now destruct (response_at (inbox w) 0).
Qed.

Lemma homing_loop_S fuel args _rot t0 nz w :
  homing_loop (S fuel) args _rot t0 nz w
  = match clock w with
    | [] => (OutOfTrace, w)
    | t :: _ =>
        if Qltb (t - t0) (homing_timeout args) then
          let w1 := polled (ticked w) in
          match parsed_position (response_at (inbox w) 0) with
          | None => (Ret tt, logged ERROR "Could not communicate with rotator." w1)
          | Some p =>
              if arrivedb args p then
                let r := set_azel _rot (home_azimuth args) (home_elevation args)
                           false 120
                           (logged INFO "Finished moving to target position." w1) in
                (match fst r with
                 | Ret _ => Ret tt
                 | Raise e => Raise e
                 | OutOfTrace => OutOfTrace
                 end, snd r)
              else
                match step_azimuth (azimuth_step args) (home_azimuth args) (fst p) nz with
                | None => (Raise unbound_exn, w1)
                | Some v =>
                    let r := set_azel _rot (py_mod v 360) (home_elevation args)
                               true 120 w1 in
                    match fst r with
                    | Ret true =>
                        homing_loop fuel args _rot t0 (Some (py_mod v 360))
                          (logged INFO "Movement successful!" (snd r))
                    | Ret false =>
                        (Ret tt, logged ERROR "Failed to move rotator. Breaking" (snd r))
                    | Raise e =>
                        (Ret tt, logged ERROR ("Error - " ++ str_exn e)%string (snd r))
                    | OutOfTrace => (OutOfTrace, snd r)
                    end
                end
          end
        else (Ret tt, ticked w)
    end.
Proof.
  cbn [homing_loop]. unfold bind at 1, time_time.
  destruct (clock w) as [|t clk] eqn:Hclk; [reflexivity|].
  fold (ticked w). replace (mkWorld clk (inbox w) (sent w) (slept w) (log w) (closed w))
    with (ticked w) by (unfold ticked; now rewrite Hclk).
  destruct (Qltb (t - t0) (homing_timeout args)); [|reflexivity].
  unfold bind at 1. rewrite get_azel_run. fold (polled (ticked w)).
  change (inbox (ticked w)) with (inbox w).
  destruct (parsed_position (response_at (inbox w) 0)) as [[_az _el]|]; [|reflexivity].
  cbv zeta. unfold arrivedb. cbn [fst snd].
  destruct (_ && _).
  - unfold bind at 1, logging.
    fold (logged INFO "Finished moving to target position." (polled (ticked w))).
    unfold bind at 1.
    destruct (set_azel _rot (home_azimuth args) (home_elevation args) false 120 _)
      as [[b|e|] w']; reflexivity.
  - destruct (step_azimuth (azimuth_step args) (home_azimuth args) _az nz) as [v|];
      [|reflexivity].
    unfold bind at 1, read_new_az, ret. unfold bind at 1, try_except. unfold bind at 1.
    destruct (set_azel _rot (py_mod v 360) (home_elevation args) true 120 _)
      as [[[|]|e|] w']; reflexivity.
Qed.

Lemma homing_run args _rot w :
  homing args _rot w
  = match clock w with
    | [] => (OutOfTrace, w)
    | t0 :: clk =>
        let r := homing_loop (S (List.length clk)) args _rot t0 None
                   (logged INFO (attempt_line args) (ticked w)) in
        (match fst r with
         | Ret _ => Ret t0
         | Raise e => Raise e
         | OutOfTrace => OutOfTrace
         end, snd r)
    end.
Proof.
  unfold homing. unfold bind at 1, time_time.
  destruct (clock w) as [|t0 clk] eqn:Hclk; [reflexivity|].
  unfold bind at 1, logging. cbn [clock inbox sent slept log closed].
  unfold bind at 1. fold (attempt_line args).
  replace (mkWorld clk (inbox w) (sent w) (slept w)
             (log w ++ [(INFO, attempt_line args)]) (closed w))
    with (logged INFO (attempt_line args) (ticked w))
    by (unfold logged, ticked; cbn; now rewrite Hclk).
  cbn [clock List.length]. unfold logged, ticked at 1. cbn [clock]. rewrite Hclk. cbn [tl].
  destruct (homing_loop (S (List.length clk)) args _rot t0 None _) as [[u|e|] w'];
    reflexivity.
Qed.

Lemma main_run_accepted args w :
  main None args w
  = match response_at (inbox w) 0 with
    | None => (Raise (Exception "Timeout!"), shut (connected w))
    | Some _ =>
        let r := homing args (rot_of_args args) (connected w) in
        match fst r with
        | Ret t0 =>
            match clock (snd r) with
            | [] => (OutOfTrace, shut (snd r))
            | now :: _ =>
                (Ret tt,
                 logged INFO ("Elapsed time: " ++ fmt_d (now - t0) ++ " seconds")%string
                   (ticked (shut (snd r))))
            end
        | Raise e => (Raise e, snd r)
        | OutOfTrace => (OutOfTrace, snd r)
        end
    end.
Proof.
  unfold main. unfold bind at 1. rewrite connect_run.
  destruct (response_at (inbox w) 0) as [s|]; [|reflexivity].
  unfold bind at 1.
  destruct (homing args (rot_of_args args) (connected w)) as [[t0|e|] w']; try reflexivity.
  cbn [fst snd]. unfold bind at 1, close, sock_close. fold (shut w').
  unfold bind at 1, time_time. cbn [shut clock].
  destruct (clock w') as [|now c] eqn:Hc; [reflexivity|].
  unfold logging, logged, ticked, shut. cbn. now rewrite Hc.
Qed.

Lemma main_run_refused e args w : main (Some e) args w = (Raise e, w).
Proof. unfold main. unfold bind at 1. now rewrite connect_run. Qed.

(** *** The clock trace and the fuel of the loops *)

(** A branch that ends the loop without asking for a clock reading. *)
Ltac clk_end Hclk :=
  cbn [fst snd polled slept_once position_logged ticked logged commanded clock];
  rewrite ?Hclk; cbn [tl List.length];
  split; [lia | discriminate].

Lemma wait_clock self az el t0 fuel :
  forall w,
    (List.length (clock (snd (set_azel_wait fuel self az el t0 w)))
     <= List.length (clock w))%nat
    /\ ((List.length (clock w) < fuel)%nat ->
        fst (set_azel_wait fuel self az el t0 w) = OutOfTrace ->
        clock (snd (set_azel_wait fuel self az el t0 w)) = []).
Proof.
  induction fuel as [|fuel IH]; intros w.
  - simpl. split; [lia|]. intros H. lia.
  - rewrite set_azel_wait_S.
    destruct (clock w) as [|t rest] eqn:Hclk.
    + simpl. rewrite ?Hclk. split; [cbn [List.length]; lia|reflexivity].
    + destruct (Qltb (t - t0) (movement_timeout self));
        [|clk_end Hclk].
      cbv zeta.
      destruct (parsed_position (response_at (inbox w) 0)) as [p|];
        [|clk_end Hclk].
      destruct (withinb self az el p);
        [clk_end Hclk|].
      destruct (IH (position_logged p (polled (slept_once self w)))) as [Hle Hout].
      cbn [position_logged polled slept_once clock] in Hle, Hout.
      rewrite Hclk in Hle, Hout. cbn [tl] in Hle, Hout.
      split; [cbn [List.length]; lia|]. intros Hf. apply Hout. cbn [List.length] in Hf. lia.
Qed.

Lemma set_azel_clock self az el blocking timeout w :
  (List.length (clock (snd (set_azel self az el blocking timeout w)))
   <= List.length (clock w))%nat
  /\ (fst (set_azel self az el blocking timeout w) = OutOfTrace ->
      clock (snd (set_azel self az el blocking timeout w)) = []).
Proof.
  rewrite set_azel_run.
  destruct (response_at (inbox w) 0) as [s|]; [|cbn; split; [lia|discriminate]].
  destruct (contains "RPRT 0" s); [|cbn; split; [lia|discriminate]].
  destruct blocking; [|cbn; split; [lia|discriminate]].
  destruct (clock w) as [|t0 clk] eqn:Hclk.
  - cbn. rewrite ?Hclk. split; [cbn [List.length]; lia|reflexivity].
  - destruct (wait_clock self (sane_azimuth az) (sane_elevation el) t0
                (S (List.length clk)) (waiting az el w)) as [Hle Hout].
    cbn [waiting clock] in Hle, Hout. rewrite Hclk in Hle, Hout. cbn [tl] in Hle, Hout.
    split; [cbn [List.length]; lia|]. apply Hout. lia.
Qed.

Lemma homing_loop_clock args _rot t0 fuel :
  forall nz w,
    (List.length (clock (snd (homing_loop fuel args _rot t0 nz w)))
     <= List.length (clock w))%nat
    /\ ((List.length (clock w) < fuel)%nat ->
        fst (homing_loop fuel args _rot t0 nz w) = OutOfTrace ->
        clock (snd (homing_loop fuel args _rot t0 nz w)) = []).
Proof.
  induction fuel as [|fuel IH]; intros nz w.
  - simpl. split; [lia|]. intros H. lia.
  - rewrite homing_loop_S.
    destruct (clock w) as [|t rest] eqn:Hclk.
    + simpl. rewrite ?Hclk. split; [cbn [List.length]; lia|reflexivity].
    + assert (Hw1 : clock (polled (ticked w)) = rest)
        by (cbn [polled ticked clock]; now rewrite Hclk).
      destruct (Qltb (t - t0) (homing_timeout args));
        [|clk_end Hclk].
      cbv zeta.
      destruct (parsed_position (response_at (inbox w) 0)) as [p|];
        [|clk_end Hclk].
      destruct (arrivedb args p).
      * destruct (set_azel_clock _rot (home_azimuth args) (home_elevation args)
                    false 120
                    (logged INFO "Finished moving to target position."
                       (polled (ticked w)))) as [Hle Hout].
        cbn [logged clock] in Hle. rewrite Hw1 in Hle.
        destruct (set_azel _rot (home_azimuth args) (home_elevation args) false 120 _)
          as [[b|e|] w']; cbn [fst snd] in *;
          (split; [cbn [List.length]; lia|]); try discriminate.
        intros _ _. now apply Hout.
      * destruct (step_azimuth (azimuth_step args) (home_azimuth args) (fst p) nz)
          as [v|]; [|clk_end Hclk].
        destruct (set_azel_clock _rot (py_mod v 360) (home_elevation args) true 120
                    (polled (ticked w))) as [Hle Hout].
        rewrite Hw1 in Hle.
        destruct (set_azel _rot (py_mod v 360) (home_elevation args) true 120 _)
          as [[[|]|e|] w']; cbn [fst snd] in *.
        -- destruct (IH (Some (py_mod v 360)) (logged INFO "Movement successful!" w'))
             as [Hle' Hout'].
           cbn [logged clock] in Hle', Hout'.
           split; [cbn [List.length]; lia|]. intros Hf. apply Hout'. cbn [List.length] in Hf. lia.
        -- split; [cbn [logged clock List.length]; lia|discriminate].
        -- split; [cbn [logged clock List.length]; lia|discriminate].
        -- split; [cbn [List.length]; lia|]. intros _ _. now apply Hout.
Qed.

(** *** What leaves the loop *)

Lemma homing_loop_raises args _rot t0 fuel :
  forall nz w e,
    fst (homing_loop fuel args _rot t0 nz w) = Raise e ->
    e = unbound_exn \/ e = not_iterable_exn.
Proof.
  induction fuel as [|fuel IH]; intros nz w e; [discriminate|].
  rewrite homing_loop_S.
  destruct (clock w) as [|t rest]; [discriminate|].
  destruct (Qltb (t - t0) (homing_timeout args)); [|discriminate].
  cbv zeta.
  destruct (parsed_position (response_at (inbox w) 0)) as [p|]; [|discriminate].
  destruct (arrivedb args p).
  - rewrite set_azel_run.
    destruct (response_at _ 0) as [s|];
      [destruct (contains "RPRT 0" s); discriminate|].
    cbn [fst]. intros [= <-]. now right.
  - destruct (step_azimuth (azimuth_step args) (home_azimuth args) (fst p) nz) as [v|];
      [|cbn [fst]; intros [= <-]; now left].
    destruct (set_azel _rot (py_mod v 360) (home_elevation args) true 120 _)
      as [[[|]|e'|] w']; cbn [fst snd]; try discriminate.
    apply IH.
Qed.

(** X10.  How a session can end, as long as every write to the socket
    succeeds.  It returns with the connection closed; or [sock.connect]
    raises, nothing having been written and nothing being closed; or the
    model query is not answered, and [connect] closes and raises; or
    one of two exceptions leaves the loop before [close] is reached: the
    [NameError] of an unbound [_new_az] and the [TypeError] of an
    unanswered final command.  Every other failure inside the loop is
    turned into a [break].  (The trace of clock readings is finite: a
    session that outlives it is cut where the next reading is asked
    for, and nowhere else.) *)
Theorem main_exits refused args w :
  (fst (main refused args w) = Ret tt
   /\ closed (snd (main refused args w)) = true)
  \/ (exists e, refused = Some e
                /\ main refused args w = (Raise e, w))
  \/ (refused = None
      /\ fst (main refused args w) = Raise (Exception "Timeout!")
      /\ closed (snd (main refused args w)) = true
      /\ response_at (inbox w) 0 = None)
  \/ fst (main refused args w) = Raise unbound_exn
  \/ fst (main refused args w) = Raise not_iterable_exn
  \/ (fst (main refused args w) = OutOfTrace
      /\ clock (snd (main refused args w)) = []).
Proof.
  destruct refused as [e|];
    [right; left; exists e; split; [reflexivity | apply main_run_refused]|].
  rewrite main_run_accepted.
  destruct (response_at (inbox w) 0) as [s|];
    [|right; right; left; now repeat split].
  cbv zeta. rewrite homing_run.
  destruct (clock (connected w)) as [|t0 clk] eqn:Hclk.
  - do 5 right. cbn [fst snd]. now split.
  - cbv zeta.
    pose proof (homing_loop_raises args (rot_of_args args) t0 (S (List.length clk))
                  None (logged INFO (attempt_line args) (ticked (connected w)))) as Hr.
    destruct (homing_loop_clock args (rot_of_args args) t0 (S (List.length clk))
                None (logged INFO (attempt_line args) (ticked (connected w))))
      as [_ Hout].
    cbn [logged ticked clock] in Hout. rewrite Hclk in Hout. cbn [tl] in Hout.
    destruct (homing_loop (S (List.length clk)) args (rot_of_args args) t0 None _)
      as [[u|e|] w']; cbn [fst snd] in *.
    + destruct (clock w') as [|now c] eqn:Hc.
      * do 5 right. cbn. now split.
      * left. now split.
    + destruct (Hr e eq_refl) as [-> | ->]; [do 3 right; now left|].
      do 4 right; now left.
    + do 5 right. split; [reflexivity|]. apply Hout; [lia|reflexivity].
Qed.

(** *** The exits of the first iteration *)

(** The end of a session whose loop has returned. *)
Ltac session_end :=
  cbn [fst snd];
  match goal with
  | |- context [match clock ?w' with _ => _ end] =>
      destruct (clock w'); cbn; rewrite <- ?app_assoc; repeat split
  end.

(** Membership in a log built by appending. *)
Ltac in_log := rewrite ?in_app_iff; cbn [In]; solve [auto 12].

(** X11.  When the overall timeout has elapsed at the first guard of the
    loop, the session asks for no position and sends no command: it
    closes the connection at once. *)
Theorem main_overall_timeout args w s t0 t1 clk :
  response_at (inbox w) 0 = Some s ->
  clock w = t0 :: t1 :: clk ->
  homing_timeout args <= t1 - t0 ->
  sent (snd (main None args w)) = sent w ++ [("_" ++ nl)%string]
  /\ slept (snd (main None args w)) = slept w
  /\ closed (snd (main None args w)) = true.
Proof.
  intros Hs Hclk Hlate. apply Qltb_ge in Hlate.
  rewrite main_run_accepted, Hs. cbv zeta. rewrite homing_run.
  cbn [connected clock]. rewrite Hclk. cbv zeta. rewrite homing_loop_S.
  cbn [logged ticked connected clock]. rewrite Hclk. cbn [tl]. rewrite Hlate.
  session_end.
Qed.

(** X12.  When the first position cannot be read, the session logs the
    loss of communication, sends no position command and closes the
    connection. *)
Theorem main_unreadable_position args w s t0 t1 clk :
  response_at (inbox w) 0 = Some s ->
  clock w = t0 :: t1 :: clk ->
  t1 - t0 < homing_timeout args ->
  parsed_position (response_at (inbox w) 1) = None ->
  sent (snd (main None args w)) = sent w ++ [("_" ++ nl)%string; poll_line]
  /\ slept (snd (main None args w)) = slept w
  /\ In (ERROR, "Could not communicate with rotator."%string)
       (log (snd (main None args w)))
  /\ closed (snd (main None args w)) = true.
Proof.
  intros Hs Hclk Hin Hp. apply Qltb_lt in Hin. rewrite response_at_S in Hp.
  rewrite main_run_accepted, Hs. cbv zeta. rewrite homing_run.
  cbn [connected clock]. rewrite Hclk. cbv zeta. rewrite homing_loop_S.
  cbn [logged ticked connected clock inbox]. rewrite Hclk. cbn [tl]. rewrite Hin, Hp.
  cbv zeta.
  session_end; in_log.
Qed.

Lemma arrivedb_false args p :
  ~ (Qabs (home_azimuth args - fst p) < args_movement_threshold args
     /\ Qabs (home_elevation args - snd p) < args_movement_threshold args) ->
  arrivedb args p = false.
Proof.
  intros H. unfold arrivedb. apply not_true_is_false. intros E.
  apply andb_true_iff in E. rewrite !Qltb_lt in E. contradiction.
Qed.

(** The first iteration up to the step command. *)
Ltac first_step Hs Hclk Hin Hp Hna Hv :=
  apply Qltb_lt in Hin; rewrite response_at_S in Hp;
  rewrite main_run_accepted, Hs; cbv zeta; rewrite homing_run;
  cbn [connected clock]; rewrite Hclk; cbv zeta; rewrite homing_loop_S;
  cbn [logged ticked connected clock inbox]; rewrite Hclk; cbn [tl];
  rewrite Hin, Hp; cbv zeta; rewrite (arrivedb_false _ _ Hna), Hv;
  rewrite set_azel_run;
  cbn [polled ticked logged connected clock inbox];
  rewrite <- !response_at_S.

(** X13.  When the first step command is answered without the success
    marker, the session logs the failed move, sends nothing more and
    closes the connection: the step is not retried. *)
Theorem main_rejected_step args w s t0 t1 clk p v s2 :
  response_at (inbox w) 0 = Some s ->
  clock w = t0 :: t1 :: clk ->
  t1 - t0 < homing_timeout args ->
  parsed_position (response_at (inbox w) 1) = Some p ->
  ~ (Qabs (home_azimuth args - fst p) < args_movement_threshold args
     /\ Qabs (home_elevation args - snd p) < args_movement_threshold args) ->
  step_azimuth (azimuth_step args) (home_azimuth args) (fst p) None = Some v ->
  response_at (inbox w) 2 = Some s2 ->
  contains "RPRT 0" s2 = false ->
  sent (snd (main None args w))
  = sent w ++ [("_" ++ nl)%string; poll_line;
               wire (py_mod v 360) (home_elevation args)]
  /\ slept (snd (main None args w)) = slept w
  /\ In (ERROR, "Failed to move rotator. Breaking"%string) (log (snd (main None args w)))
  /\ closed (snd (main None args w)) = true.
Proof.
  intros Hs Hclk Hin Hp Hna Hv Hs2 Hc.
  first_step Hs Hclk Hin Hp Hna Hv. rewrite Hs2, Hc.
  session_end; in_log.
Qed.

(** X14.  When the first step command is not answered at all, the
    [TypeError] of [set_azel] is caught by the loop: the session logs it,
    sends nothing more and closes the connection. *)
Theorem main_unanswered_step args w s t0 t1 clk p v :
  response_at (inbox w) 0 = Some s ->
  clock w = t0 :: t1 :: clk ->
  t1 - t0 < homing_timeout args ->
  parsed_position (response_at (inbox w) 1) = Some p ->
  ~ (Qabs (home_azimuth args - fst p) < args_movement_threshold args
     /\ Qabs (home_elevation args - snd p) < args_movement_threshold args) ->
  step_azimuth (azimuth_step args) (home_azimuth args) (fst p) None = Some v ->
  response_at (inbox w) 2 = None ->
  sent (snd (main None args w))
  = sent w ++ [("_" ++ nl)%string; poll_line;
               wire (py_mod v 360) (home_elevation args)]
  /\ slept (snd (main None args w)) = slept w
  /\ In (ERROR, "Error - argument of type 'NoneType' is not iterable"%string)
       (log (snd (main None args w)))
  /\ closed (snd (main None args w)) = true.
Proof.
  intros Hs Hclk Hin Hp Hna Hv Hs2.
  first_step Hs Hclk Hin Hp Hna Hv. rewrite Hs2.
  session_end; in_log.
Qed.

(** X15.  When the first step is accepted and its movement timeout (120
    seconds) has elapsed at the first guard of the wait, the raised
    timeout is caught by the loop: the session logs it, polls no more,
    sends no further command and closes the connection. *)
Theorem main_step_timeout args w s t0 t1 t2 t3 clk p v s2 :
  response_at (inbox w) 0 = Some s ->
  clock w = t0 :: t1 :: t2 :: t3 :: clk ->
  t1 - t0 < homing_timeout args ->
  parsed_position (response_at (inbox w) 1) = Some p ->
  ~ (Qabs (home_azimuth args - fst p) < args_movement_threshold args
     /\ Qabs (home_elevation args - snd p) < args_movement_threshold args) ->
  step_azimuth (azimuth_step args) (home_azimuth args) (fst p) None = Some v ->
  response_at (inbox w) 2 = Some s2 ->
  contains "RPRT 0" s2 = true ->
  120 <= t3 - t2 ->
  sent (snd (main None args w))
  = sent w ++ [("_" ++ nl)%string; poll_line;
               wire (py_mod v 360) (home_elevation args)]
  /\ slept (snd (main None args w)) = slept w
  /\ In (ERROR, "Error - Movement Timeout!"%string) (log (snd (main None args w)))
  /\ closed (snd (main None args w)) = true.
Proof.
  intros Hs Hclk Hin Hp Hna Hv Hs2 Hc Hlate.
  first_step Hs Hclk Hin Hp Hna Hv. rewrite Hs2, Hc.
  rewrite ?Hclk. cbn [tl]. rewrite set_azel_wait_S.
  cbn [waiting polled ticked logged connected clock]. rewrite Hclk. cbn [tl].
  apply Qltb_ge in Hlate. cbn [rot_of_args movement_timeout]. rewrite Hlate.
  session_end; in_log.
Qed.

(** ** The schedule lookup *)

Lemma with_log_nil w : with_log [] w = w.
Proof. unfold with_log. rewrite app_nil_r. now destruct w. Qed.

Lemma with_log_app l1 l2 w : with_log l2 (with_log l1 w) = with_log (l1 ++ l2) w.
Proof. unfold with_log. cbn. now rewrite app_assoc. Qed.

(** Pages that go on are gathered and followed. *)
Lemma fetch_goes_on pre :
  Forall page_goes_on pre ->
  forall rest acc w, exists records,
    fetch_observations (pre ++ rest) acc w
    = fetch_observations rest (acc ++ flat_map page_obs pre) (with_log records w).
Proof.
  induction 1 as [|p pre (o & obs & ->) _ IH]; intros rest acc w.
  - exists []. simpl. now rewrite app_nil_r, with_log_nil.
  - cbn [app fetch_observations flat_map page_obs].
    unfold bind at 1, logging.
    match goal with
    | |- context [(log w ++ [?r])%list] =>
        destruct (IH rest (acc ++ o :: obs)%list (with_log [r] w)) as [records Hr];
        exists ([r] ++ records)%list
    end.
    fold (with_log [(DEBUG,
                     ("Appended " ++ string_of_Z (Z.of_nat (List.length (o :: obs)))
                        ++ " observations to list.")%string)] w).
    rewrite Hr, with_log_app, <- app_assoc. reflexivity.
Qed.

Lemma fetch_gives_up bad rest acc w :
  page_gives_up bad ->
  exists records,
    fetch_observations (bad :: rest) acc w = (Ret None, with_log records w).
Proof.
  destruct bad as [msg| |[|o obs] next]; intros H; try contradiction;
    eexists; cbn [fetch_observations]; unfold bind, logging, ret;
    unfold with_log; reflexivity.
Qed.

Lemma fetch_exhausted acc w :
  exists records, fetch_observations [] acc w = (Ret None, with_log records w).
Proof. eexists. cbn. unfold bind, logging, ret, with_log. reflexivity. Qed.

Lemma fetch_last o obs rest acc w :
  exists records,
    fetch_observations (PageList (o :: obs) false :: rest) acc w
    = (Ret (Some (acc ++ o :: obs)%list), with_log records w).
Proof. eexists. cbn. unfold bind, logging, ret, with_log. reflexivity. Qed.

(** The search keeps the earliest start seen inside the window. *)
Lemma select_fold E obs :
  forall t info,
    let r := fold_left (select_step E) obs (t, info) in
    fst r <= t
    /\ (forall o', In o' obs -> E < obs_start o' -> fst r <= obs_start o')
    /\ (r = (t, info)
        \/ exists o, In o obs /\ r = (obs_start o, Some o)
                     /\ E < obs_start o /\ obs_start o < t).
Proof.
  induction obs as [|a obs IH]; intros t info; cbv zeta.
  - cbn. split; [lra|]. split; [intros o' []|now left].
  - cbn [fold_left].
    assert (Hs : select_step E (t, info) a
                 = if Qltb (obs_start a) t && Qltb E (obs_start a)
                   then (obs_start a, Some a) else (t, info)) by reflexivity.
    rewrite Hs. clear Hs.
    destruct (Qltb_spec (obs_start a) t) as [Hlt|Hge]; cbn [andb].
    + destruct (Qltb_spec E (obs_start a)) as [Hgt|Hle].
      * destruct (IH (obs_start a) (Some a)) as (H1 & H2 & H3). cbv zeta in *.
        split; [lra|]. split.
        -- intros o' [<-|Hin] HE; [lra|now apply H2].
        -- right. destruct H3 as [H3|(o & Hin & Hr & HE & Hlt')].
           ++ exists a. split; [now left|]. now repeat split.
           ++ exists o. split; [now right|]. repeat split; trivial. lra.
      * destruct (IH t info) as (H1 & H2 & H3). cbv zeta in *.
        split; [assumption|]. split.
        -- intros o' [<-|Hin] HE; [lra|now apply H2].
        -- destruct H3 as [H3|(o & Hin & Hr & HE & Hlt')]; [now left|].
           right. exists o. split; [now right|]. now repeat split.
    + destruct (IH t info) as (H1 & H2 & H3). cbv zeta in *.
      split; [assumption|]. split.
      * intros o' [<-|Hin] HE; [lra|now apply H2].
      * destruct H3 as [H3|(o & Hin & Hr & HE & Hlt')]; [now left|].
        right. exists o. split; [now right|]. now repeat split.
Qed.

(** X16.  The search of lines 215-221 returns the earliest observation
    that starts inside the window, before [_next_obs_time] and after
    [_earliest_obs_time], together with its start; it returns nothing,
    and leaves [_next_obs_time] as it was, exactly when no observation
    starts inside the window. *)
Theorem select_next_earliest (_next_obs_time _earliest_obs_time : Q)
    (_obs : list Observation) :
  match snd (select_next _next_obs_time _earliest_obs_time _obs) with
  | Some o =>
      In o _obs
      /\ fst (select_next _next_obs_time _earliest_obs_time _obs) = obs_start o
      /\ obs_start o < _next_obs_time
      /\ _earliest_obs_time < obs_start o
      /\ forall o', In o' _obs -> _earliest_obs_time < obs_start o' ->
                    obs_start o <= obs_start o'
  | None =>
      fst (select_next _next_obs_time _earliest_obs_time _obs) = _next_obs_time
      /\ forall o', In o' _obs ->
                    ~ (obs_start o' < _next_obs_time
                       /\ _earliest_obs_time < obs_start o')
  end.
Proof.
  unfold select_next.
  destruct (select_fold _earliest_obs_time _obs _next_obs_time None)
    as (H1 & H2 & H3). cbv zeta in *.
  destruct H3 as [H3|(o & Hin & Hr & HE & Hlt)].
  - rewrite H3 in *. cbn [fst snd] in *. split; [reflexivity|].
    intros o' Hin [Hlt HE]. specialize (H2 o' Hin HE). lra.
  - rewrite Hr in *. cbn [fst snd] in *. repeat split; trivial.
Qed.

Lemma fetch_world pages :
  forall acc w, exists r records,
    fetch_observations pages acc w = (Ret r, with_log records w).
Proof.
  induction pages as [|p pages IH]; intros acc w.
  - destruct (fetch_exhausted acc w) as [records H]. eauto.
  - destruct p as [msg| |[|o obs] next].
    + destruct (fetch_gives_up (PageError msg) pages acc w I) as [records H]. eauto.
    + destruct (fetch_gives_up PageOther pages acc w I) as [records H]. eauto.
    + destruct (fetch_gives_up (PageList [] next) pages acc w I) as [records H]. eauto.
    + destruct next.
      * destruct (fetch_goes_on [PageList (o :: obs) true]) with (rest := pages)
          (acc := acc) (w := w) as [records H].
        { constructor; [now exists o, obs | constructor]. }
        cbn [app] in H. rewrite H.
        destruct (IH (acc ++ flat_map page_obs [PageList (o :: obs) true])%list
                    (with_log records w)) as (r & records' & H').
        rewrite H', with_log_app. eauto.
      * destruct (fetch_last o obs pages acc w) as [records H]. eauto.
Qed.

(** The lookup touches nothing but the clock and the log. *)
Lemma get_next_world pages w :
  sent (snd (get_next_rise_azimuth pages w)) = sent w
  /\ inbox (snd (get_next_rise_azimuth pages w)) = inbox w
  /\ slept (snd (get_next_rise_azimuth pages w)) = slept w
  /\ closed (snd (get_next_rise_azimuth pages w)) = closed w.
Proof.
  unfold get_next_rise_azimuth, bind.
  destruct (fetch_world pages [] w) as (r & records & ->).
  destruct r as [obs|]; [|now repeat split].
  unfold time_time. cbn [with_log clock].
  destruct (clock w) as [|n1 [|n2 [|n3 clk]]]; cbn; try (now repeat split).
  destruct (snd (select_next (n1 + 86400) (n2 + 60) obs)); now repeat split.
Qed.

(** X17.  When every page up to the last one is a non-empty list, the
    lookup gathers the observations of all pages and returns the rise
    azimuth of the earliest one that starts more than 60 seconds after
    the second clock reading and less than a day after the first,
    together with the time left until that start at the third reading;
    it returns [(None, None)] exactly when no gathered observation
    starts inside that window.  Pages after the one without a [next]
    link are not requested. *)
Theorem get_next_rise_azimuth_earliest pre o1 last rest w n1 n2 n3 clk :
  Forall page_goes_on pre ->
  clock w = n1 :: n2 :: n3 :: clk ->
  let gathered := (flat_map page_obs pre ++ o1 :: last)%list in
  let run := get_next_rise_azimuth (pre ++ PageList (o1 :: last) false :: rest) w in
  clock (snd run) = clk
  /\ match fst run with
     | Ret (Some (az, t)) =>
         exists o, In o gathered
                   /\ az = obs_rise_azimuth o
                   /\ t = obs_start o - n3
                   /\ in_window n1 n2 o
                   /\ forall o', In o' gathered -> in_window n1 n2 o' ->
                                 obs_start o <= obs_start o'
     | Ret None => forall o, In o gathered -> ~ in_window n1 n2 o
     | _ => False
     end.
Proof.
  intros Hpre Hclk. cbv zeta.
  unfold get_next_rise_azimuth, bind.
  destruct (fetch_goes_on pre Hpre (PageList (o1 :: last) false :: rest) [] w)
    as [records ->].
  destruct (fetch_last o1 last rest ([] ++ flat_map page_obs pre)%list
              (with_log records w)) as [records' ->].
  rewrite with_log_app. cbn [app].
  set (gathered := (flat_map page_obs pre ++ o1 :: last)%list).
  unfold time_time. cbn [with_log clock]. rewrite Hclk. cbn [clock].
  unfold select_next.
  destruct (select_fold (n2 + 60) gathered (n1 + 86400) None) as (H1 & H2 & H3).
  cbv zeta in *. unfold in_window.
  destruct H3 as [H3|(o & Hin & Hr & HE & Hlt)]; rewrite ?H3, ?Hr in *;
    cbn [fst snd logging ret clock] in *.
  - split; [reflexivity|]. intros o Hin [Hlt HE]. specialize (H2 o Hin HE). lra.
  - split; [reflexivity|]. exists o. repeat split; trivial.
    intros o' Hin' [_ HE']. now apply H2.
Qed.

(** X18.  A failed request, a response that is not a list and an empty
    page each end the lookup with [(None, None)], whatever the earlier
    pages held, and so does a [next] link that leads nowhere; the clock
    is not read and nothing is written to the socket. *)
Theorem get_next_rise_azimuth_gives_up pre tail w :
  Forall page_goes_on pre ->
  tail = [] \/ (exists bad rest, tail = bad :: rest /\ page_gives_up bad) ->
  fst (get_next_rise_azimuth (pre ++ tail) w) = Ret None
  /\ clock (snd (get_next_rise_azimuth (pre ++ tail) w)) = clock w
  /\ sent (snd (get_next_rise_azimuth (pre ++ tail) w)) = sent w.
Proof.
  intros Hpre Htail.
  unfold get_next_rise_azimuth. unfold bind.
  destruct (fetch_goes_on pre Hpre tail [] w) as [records ->].
  destruct Htail as [->|(bad & rest & -> & Hbad)].
  - destruct (fetch_exhausted ([] ++ flat_map page_obs pre)%list
                (with_log records w)) as [records' ->].
    now repeat split.
  - destruct (fetch_gives_up bad rest ([] ++ flat_map page_obs pre)%list
                (with_log records w) Hbad) as [records' ->].
    now repeat split.
Qed.

(** X19.  When the lookup reports an observation that starts sooner than
    the overall homing timeout, the script exits with status 0 before
    any connection is made: nothing is written to the socket, nothing is
    read from it and it is not closed. *)
Theorem script_not_enough_time pages refused args w az t :
  fst (get_next_rise_azimuth pages w) = Ret (Some (az, t)) ->
  t < homing_timeout args ->
  fst (script (Some pages) refused args w) = Ret (Exited 0)
  /\ sent (snd (script (Some pages) refused args w)) = sent w
  /\ inbox (snd (script (Some pages) refused args w)) = inbox w
  /\ slept (snd (script (Some pages) refused args w)) = slept w
  /\ closed (snd (script (Some pages) refused args w)) = closed w.
Proof.
  intros Hr Ht. apply Qltb_lt in Ht.
  destruct (get_next_world pages w) as (Hs & Hi & Hz & Hc).
  unfold script, bind.
  destruct (get_next_rise_azimuth pages w) as [r w']. cbn [fst snd] in *.
  subst r. rewrite Ht. cbn. now repeat split.
Qed.

End Rotator.

(** ** The statements on concrete sessions *)

Open Scope string_scope.

Lemma step_azimuth_bounded_witness :
  0 <= 45
  /\ ~ 0 == 270
  /\ exists _new_az,
       step_azimuth 45 270 0 None = Some _new_az
       /\ Qabs (_new_az - 0) <= 45
       /\ Qabs (_new_az - 0) <= Qabs (270 - 0)
       /\ (Qabs (270 - 0) <= 45 -> _new_az - 0 == 270 - 0).
Proof.
  assert (H0 : 0 <= 45) by (unfold Qle; simpl; lia).
  assert (H1 : ~ 0 == 270) by (unfold Qeq; simpl; lia).
  split; [exact H0|]. split; [exact H1|].
  exact (proj2 (proj2 (step_azimuth_bounded 45 270 0 None)) H0 H1).
Defined.

Lemma set_azel_blocking_outcome_witness :
  response_at (inbox moving_world) 0 = ack
  /\ contains "RPRT 0" ("RPRT 0" ++ nl) = true
  /\ clock moving_world = 0 :: [3; 6; 9]
  /\ fst (set_azel decimal_float (rot_of_args (mkArgs 90 45 180 90 10))
            90 45 true 120 moving_world) = Ret true.
Proof.
  split; [reflexivity|]. split; [reflexivity|]. split; [reflexivity|].
  apply (proj1 (set_azel_blocking_outcome decimal_float
                  (rot_of_args (mkArgs 90 45 180 90 10)) 90 45 120 moving_world
                  ("RPRT 0" ++ nl) 0 [3; 6; 9] eq_refl eq_refl eq_refl)).
  exists 1%nat. split; [|split].
  - intros [|[|i]] Hi; [exists 3 | exists 6 | lia]; split; reflexivity.
  - intros [|i] Hi; [|lia]. eexists. reflexivity.
  - eexists. split; [reflexivity|]. split; reflexivity.
Defined.

Lemma homing_already_there_witness :
  clock arrived_world = 0 :: 1 :: [2]
  /\ 1 - 0 < homing_timeout default_args
  /\ parsed_position decimal_float (response_at (inbox arrived_world) 0)
     = Some (2000000 # 1000000, 3500000 # 1000000)
  /\ sent (snd (homing decimal_float default_args (rot_of_args default_args)
                  arrived_world))
     = ["p" ++ nl; "P 0.0 0.0" ++ nl]
  /\ fst (homing decimal_float default_args (rot_of_args default_args)
            arrived_world) = Ret 0.
Proof.
  split; [reflexivity|]. split; [reflexivity|]. split; [reflexivity|].
  pose proof (homing_already_there decimal_float default_args
                (rot_of_args default_args) arrived_world 0 1 [2]
                (2000000 # 1000000) (3500000 # 1000000)
                eq_refl eq_refl eq_refl eq_refl eq_refl) as H.
  cbv zeta in H. destruct H as (Hsent & _ & _ & _ & _ & _ & Hres).
  split; [exact Hsent | exact Hres].
Defined.


Lemma set_azel_mod_360_witness :
  360 < 400
  /\ set_azel decimal_float (rot_of_args default_args) 400 10 false 120 ack_world
     = set_azel decimal_float (rot_of_args default_args) (py_mod 400 360) 10
         false 120 ack_world.
Proof.
  split; [reflexivity|].
  exact (set_azel_mod_360 decimal_float (rot_of_args default_args) 400 10 false
           120 ack_world eq_refl).
Defined.

(** C5, as stated, fails at the azimuth 360 itself: the guard of
    [set_azel] is strict, so [(360, 0)] is written as [P 360.0 0.0]
    whereas [(360 mod 360, 0)] is written as [P 0.0 0.0]. *)
Lemma set_azel_360_not_reduced :
  360 <= 360
  /\ sent (snd (set_azel decimal_float (rot_of_args default_args) 360 0 false
                  120 ack_world))
     = ["P 360.0 0.0" ++ nl]
  /\ sent (snd (set_azel decimal_float (rot_of_args default_args)
                  (py_mod 360 360) 0 false 120 ack_world))
     = ["P 0.0 0.0" ++ nl]
  /\ set_azel decimal_float (rot_of_args default_args) 360 0 false 120 ack_world
     <> set_azel decimal_float (rot_of_args default_args) (py_mod 360 360) 0
          false 120 ack_world.
Proof.
  split; [unfold Qle; simpl; lia|].
  split; [reflexivity|]. split; [reflexivity|].
  intros H. apply (f_equal (fun r => sent (snd r))) in H.
  vm_compute in H. discriminate H.
Qed.

Lemma set_azel_wire_in_range_witness :
  0 <= 90 /\ 90 < 360
  /\ exists k,
       sent (snd (set_azel decimal_float (rot_of_args default_args) 90 100 false
                    120 ack_world))
       = (sent ack_world
            ++ (("P " ++ fmt_1f 90 ++ " " ++ fmt_1f (clamp 100 0 90)) ++ nl)%string
            :: repeat poll_line k)%list
       /\ (false = false -> k = 0%nat).
Proof.
  assert (H0 : 0 <= 90) by (unfold Qle; simpl; lia).
  split; [exact H0|]. split; [reflexivity|].
  exact (set_azel_wire_in_range decimal_float (rot_of_args default_args) 90 100
           false 120 ack_world H0 eq_refl).
Defined.

Lemma set_azel_wire_negative_witness :
  -30 < 0
  /\ exists k,
       sent (snd (set_azel decimal_float (rot_of_args default_args) (-30) 10 false
                    120 ack_world))
       = (sent ack_world
            ++ (("P " ++ fmt_1f (-30) ++ " " ++ fmt_1f (clamp 10 0 90)) ++ nl)%string
            :: repeat poll_line k)%list
       /\ (false = false -> k = 0%nat).
Proof.
  split; [reflexivity|].
  exact (set_azel_wire_negative decimal_float (rot_of_args default_args) (-30) 10
           false 120 ack_world eq_refl).
Defined.

(** The lines of the two witnesses above, spelled out. *)
Example set_azel_wire_examples :
  sent (snd (set_azel decimal_float (rot_of_args default_args) 90 100 false 120
               ack_world)) = ["P 90.0 90.0" ++ nl]
  /\ sent (snd (set_azel decimal_float (rot_of_args default_args) (-30) 10 false
                  120 ack_world)) = ["P -30.0 10.0" ++ nl]
  /\ sent (snd (set_azel decimal_float (rot_of_args default_args) 400 (-5) false
                  120 ack_world)) = ["P 40.0 0.0" ++ nl].
Proof. repeat split. Qed.

(** C4 (equal azimuth), on the code.  With the default command line and a
    rotator standing at azimuth 0, elevation 45, the first iteration finds
    the azimuth equal to the target and the elevation off: no branch binds
    [_new_az], line 317 raises [NameError], no command is written and the
    connection is left open. *)
Theorem equal_azimuth_unbound_new_az :
  fst (main decimal_float None default_args equal_azimuth_world)
  = Raise (NameError "name '_new_az' is not defined")
  /\ sent (snd (main decimal_float None default_args equal_azimuth_world))
     = ["_" ++ nl; "p" ++ nl]
  /\ closed (snd (main decimal_float None default_args equal_azimuth_world)) = false.
Proof. repeat split. Qed.

(** On a later iteration the same missing branch reuses the azimuth of
    the previous step: the rotator stands at the target azimuth 100 and is
    sent back to 50. *)
Example equal_azimuth_stale_new_az :
  sent (snd (main decimal_float None stale_args stale_world))
  = ["_" ++ nl; "p" ++ nl; "P 50.0 0.0" ++ nl; "p" ++ nl; "p" ++ nl;
     "P 50.0 0.0" ++ nl].
Proof. reflexivity. Qed.

(** C3 (idempotence), on the code.  With the default command line and a
    rotator reported at azimuth 2, elevation 3.5 (within the threshold of
    the target on both axes), the session logs that it finished moving
    and writes exactly one final command, without any sleep; that
    command is never answered, and the session does not end in its final
    state: the [TypeError] of [set_azel] leaves the loop at line 299. *)
Theorem arrival_unanswered_final_command :
  sent (snd (main decimal_float None default_args unanswered_world))
  = ["_" ++ nl; "p" ++ nl; "P 0.0 0.0" ++ nl]
  /\ slept (snd (main decimal_float None default_args unanswered_world)) = []
  /\ log (snd (main decimal_float None default_args unanswered_world))
     = [(INFO, "Attempting to move to target position: 0.0, 0.0");
        (INFO, "Finished moving to target position.")]
  /\ fst (main decimal_float None default_args unanswered_world)
     = Raise (TypeError "argument of type 'NoneType' is not iterable").
Proof. repeat split. Qed.

(** C7 (rejected command), on the code.  When no response arrives,
    [send_command] returns [None] and the membership test of [set_azel]
    raises [TypeError] instead of returning [False]; nothing is polled. *)
Theorem set_azel_no_response_raises :
  set_azel decimal_float (rot_of_args default_args) 90 45 true 120 silent_world
  = (Raise (TypeError "argument of type 'NoneType' is not iterable"),
     mkWorld [0; 1] [] ["P 90.0 45.0" ++ nl] [] [] false).
Proof. reflexivity. Qed.

(** C9 (connection release), on the code.  A session that finds the rotator
    within the threshold sends its final command outside any [try]; when
    that command is not answered the [TypeError] of [set_azel] ends the
    session and [close] is never called. *)
Theorem main_unanswered_final_command_not_closed :
  fst (main decimal_float None default_args unanswered_world)
  = Raise (TypeError "argument of type 'NoneType' is not iterable")
  /\ In (INFO, "Finished moving to target position.")
       (log (snd (main decimal_float None default_args unanswered_world)))
  /\ closed (snd (main decimal_float None default_args unanswered_world)) = false.
Proof.
  split; [reflexivity|]. split; [|reflexivity].
  vm_compute. right. left. reflexivity.
Qed.

(** A connection that is refused ends the session before anything is
    written. *)
Example main_connection_refused :
  main decimal_float (Some refusal) default_args equal_azimuth_world
  = (Raise refusal, equal_azimuth_world).
Proof. reflexivity. Qed.


(** ** Further statements on concrete sessions *)

Lemma set_azel_rejected_no_wait_witness :
  fst (set_azel decimal_float (rot_of_args default_args) 90 45 true 120
         rejecting_world) = Ret false
  /\ sent (snd (set_azel decimal_float (rot_of_args default_args) 90 45 true 120
                  rejecting_world))
     = (sent rejecting_world ++ [wire 90 45])%list.
Proof.
  destruct (set_azel_rejected_no_wait decimal_float (rot_of_args default_args)
              90 45 true 120 rejecting_world ("RPRT -1" ++ nl) eq_refl eq_refl)
    as (H1 & H2 & _).
  split; [exact H1 | exact H2].
Defined.

Lemma set_azel_elapsed_timeout_witness :
  movement_timeout (rot_of_args default_args) <= 200 - 0
  /\ fst (set_azel decimal_float (rot_of_args default_args) 90 45 true 120
            late_world) = Raise movement_timeout_exn.
Proof.
  assert (H : movement_timeout (rot_of_args default_args) <= 200 - 0)
    by (unfold Qle; simpl; lia).
  split; [exact H|].
  exact (proj1 (set_azel_elapsed_timeout decimal_float (rot_of_args default_args)
                  90 45 120 late_world ("RPRT 0" ++ nl) 0 200 []
                  eq_refl eq_refl eq_refl H)).
Defined.

Lemma set_azel_negative_never_confirmed_witness :
  -30 < 0
  /\ movement_threshold (rot_of_args default_args) <= - -30
  /\ fst (set_azel decimal_float (rot_of_args default_args) (-30) 45 true 120
            moving_world) <> Ret true.
Proof.
  assert (H : movement_threshold (rot_of_args default_args) <= - -30)
    by (unfold Qle; simpl; lia).
  split; [reflexivity|]. split; [exact H|].
  exact (set_azel_negative_never_confirmed decimal_float
           (rot_of_args default_args) (-30) 45 120 moving_world eq_refl H).
Defined.

Lemma step_azimuth_remaining_witness :
  exists _new_az,
    step_azimuth 45 270 0 None = Some _new_az
    /\ Qabs (270 - _new_az) == Qmax 0 (Qabs (270 - 0) - 45).
Proof.
  assert (H0 : 0 <= 45) by (unfold Qle; simpl; lia).
  assert (H1 : ~ 0 == 270) by (unfold Qeq; simpl; lia).
  exact (step_azimuth_remaining 45 270 0 None H0 H1).
Defined.

Lemma step_azimuth_negative_step_witness :
  exists _new_az,
    step_azimuth (-45) 270 0 None = Some _new_az
    /\ Qabs (270 - _new_az) == Qabs (270 - 0) - -45.
Proof.
  assert (H1 : ~ 0 == 270) by (unfold Qeq; simpl; lia).
  exact (step_azimuth_negative_step (-45) 270 0 None eq_refl H1).
Defined.

Lemma main_overall_timeout_witness :
  sent (snd (main decimal_float None default_args expired_world))
  = (sent expired_world ++ [("_" ++ nl)%string])%list
  /\ slept (snd (main decimal_float None default_args expired_world))
     = slept expired_world
  /\ closed (snd (main decimal_float None default_args expired_world)) = true.
Proof.
  assert (H : homing_timeout default_args <= 200 - 0)
    by (unfold Qle; simpl; lia).
  exact (main_overall_timeout decimal_float default_args expired_world
           ("Dummy rotator" ++ nl) 0 200 [201] eq_refl eq_refl H).
Defined.

Lemma main_unreadable_position_witness :
  sent (snd (main decimal_float None default_args garbled_world))
  = (sent garbled_world ++ [("_" ++ nl)%string; poll_line])%list
  /\ slept (snd (main decimal_float None default_args garbled_world))
     = slept garbled_world
  /\ In (ERROR, "Could not communicate with rotator.")
       (log (snd (main decimal_float None default_args garbled_world)))
  /\ closed (snd (main decimal_float None default_args garbled_world)) = true.
Proof.
  exact (main_unreadable_position decimal_float default_args garbled_world
           ("Dummy rotator" ++ nl) 0 1 [2] eq_refl eq_refl eq_refl eq_refl).
Defined.

Lemma origin_not_arrived :
  ~ (Qabs (home_azimuth quarter_args - fst (0 # 1000000, 0 # 1000000))
     < args_movement_threshold quarter_args
     /\ Qabs (home_elevation quarter_args - snd (0 # 1000000, 0 # 1000000))
        < args_movement_threshold quarter_args).
Proof. intros [H _]. vm_compute in H. discriminate H. Defined.

Lemma main_rejected_step_witness :
  sent (snd (main decimal_float None quarter_args rejected_step_world))
  = (sent rejected_step_world
       ++ [("_" ++ nl)%string; poll_line;
           wire (py_mod ((0 # 1000000) + 90) 360) (home_elevation quarter_args)])%list
  /\ slept (snd (main decimal_float None quarter_args rejected_step_world))
     = slept rejected_step_world
  /\ In (ERROR, "Failed to move rotator. Breaking")
       (log (snd (main decimal_float None quarter_args rejected_step_world)))
  /\ closed (snd (main decimal_float None quarter_args rejected_step_world)) = true.
Proof.
  exact (main_rejected_step decimal_float quarter_args rejected_step_world
           ("Dummy rotator" ++ nl) 0 1 [2] (0 # 1000000, 0 # 1000000)
           ((0 # 1000000) + 90) ("RPRT -1" ++ nl)
           eq_refl eq_refl eq_refl eq_refl origin_not_arrived eq_refl eq_refl
           eq_refl).
Defined.

Lemma main_unanswered_step_witness :
  sent (snd (main decimal_float None quarter_args unanswered_step_world))
  = (sent unanswered_step_world
       ++ [("_" ++ nl)%string; poll_line;
           wire (py_mod ((0 # 1000000) + 90) 360) (home_elevation quarter_args)])%list
  /\ slept (snd (main decimal_float None quarter_args unanswered_step_world))
     = slept unanswered_step_world
  /\ In (ERROR, "Error - argument of type 'NoneType' is not iterable")
       (log (snd (main decimal_float None quarter_args unanswered_step_world)))
  /\ closed (snd (main decimal_float None quarter_args unanswered_step_world)) = true.
Proof.
  exact (main_unanswered_step decimal_float quarter_args unanswered_step_world
           ("Dummy rotator" ++ nl) 0 1 [2] (0 # 1000000, 0 # 1000000)
           ((0 # 1000000) + 90)
           eq_refl eq_refl eq_refl eq_refl origin_not_arrived eq_refl eq_refl).
Defined.

Lemma main_step_timeout_witness :
  sent (snd (main decimal_float None quarter_args stalled_step_world))
  = (sent stalled_step_world
       ++ [("_" ++ nl)%string; poll_line;
           wire (py_mod ((0 # 1000000) + 90) 360) (home_elevation quarter_args)])%list
  /\ slept (snd (main decimal_float None quarter_args stalled_step_world))
     = slept stalled_step_world
  /\ In (ERROR, "Error - Movement Timeout!")
       (log (snd (main decimal_float None quarter_args stalled_step_world)))
  /\ closed (snd (main decimal_float None quarter_args stalled_step_world)) = true.
Proof.
  assert (H : 120 <= 200 - 2) by (unfold Qle; simpl; lia).
  exact (main_step_timeout decimal_float quarter_args stalled_step_world
           ("Dummy rotator" ++ nl) 0 1 2 200 [201] (0 # 1000000, 0 # 1000000)
           ((0 # 1000000) + 90) ("RPRT 0" ++ nl)
           eq_refl eq_refl eq_refl eq_refl origin_not_arrived eq_refl eq_refl
           eq_refl H).
Defined.

Lemma two_pages_go_on : Forall page_goes_on [PageList [obs_later] true].
Proof. constructor; [now exists obs_later, [] | constructor]. Defined.

Lemma get_next_rise_azimuth_earliest_witness :
  fst (get_next_rise_azimuth two_pages schedule_world)
  = Ret (Some (200, 3000 - 1001))
  /\ clock (snd (get_next_rise_azimuth two_pages schedule_world)) = [].
Proof.
  destruct (get_next_rise_azimuth_earliest [PageList [obs_later] true]
              obs_next [obs_too_soon] [] schedule_world 1000 1000 1001 []
              two_pages_go_on eq_refl) as [Hclk _].
  split; [reflexivity | exact Hclk].
Defined.

Lemma get_next_rise_azimuth_gives_up_witness :
  fst (get_next_rise_azimuth broken_pages schedule_world) = Ret None
  /\ clock (snd (get_next_rise_azimuth broken_pages schedule_world))
     = clock schedule_world
  /\ sent (snd (get_next_rise_azimuth broken_pages schedule_world))
     = sent schedule_world.
Proof.
  apply (get_next_rise_azimuth_gives_up [PageList [obs_later] true]
           [PageList [] false] schedule_world two_pages_go_on).
  right. exists (PageList [] false), []. split; [reflexivity | exact I].
Defined.

Lemma script_not_enough_time_witness :
  fst (script decimal_float fmt_1f (Some [PageList [obs_soon] false])
         None default_args schedule_world) = Ret (Exited 0)
  /\ sent (snd (script decimal_float fmt_1f (Some [PageList [obs_soon] false])
                  None default_args schedule_world)) = sent schedule_world.
Proof.
  destruct (script_not_enough_time decimal_float fmt_1f
              [PageList [obs_soon] false] None default_args schedule_world
              75 (1100 - 1001) eq_refl eq_refl) as (H1 & H2 & _).
  split; [exact H1 | exact H2].
Defined.
